(** * Seminari JWT backend: token handling and the auth endpoints

    A shallow embedding of [src/utils/jwt.handle.ts] (token minting and
    verification on top of the [jsonwebtoken] package), of
    [src/modules/auth/auth_controller.ts] (register, login and Google OAuth
    controllers) and of the [POST /auth/refresh] route handler, followed by
    the properties the specification states about them.

    Conventions.
    - JavaScript values are [Json] trees; [undefined] is [None] in
      [option Json].  Numbers are integers ([Z]).
    - A function that may throw returns [Result A]; [try]/[catch] is a
      [match] on it.
    - [Date.now()] is an explicit argument, in milliseconds.
    - [process.env] is a record of optional strings.
    - The Express response object is threaded as a value of type
      [Response]. *)

From Stdlib Require Import ZArith List String Ascii Bool Lia.
Import ListNotations.
Local Open Scope string_scope.
Local Open Scope Z_scope.

(* ===================================================================== *)
(** ** JavaScript values *)
(* ===================================================================== *)

Module Js.

#[local] Unset Elimination Schemes.
Inductive Json : Type :=
| JNull
| JBool (b : bool)
| JNum (z : Z)
| JStr (s : string)
| JArr (elems : list Json)
| JObj (fields : list (string * Json)).
#[local] Set Elimination Schemes.

(** A value that may be [undefined]. *)
Definition JsValue := option Json.

(** Property lookup in an object literal: first binding of the key. *)
Fixpoint assoc (k : string) (l : list (string * Json)) : JsValue :=
  match l with
  | [] => None
  | (k', v) :: l' => if String.eqb k k' then Some v else assoc k l'
  end.

(** [o.k]: for a value that is not an object the properties read in this
    development ([id], [exp], [nbf], [iat], [refreshToken]) are
    [undefined]. *)
Definition get (o : Json) (k : string) : JsValue :=
  match o with
  | JObj l => assoc k l
  | _ => None
  end.

(** [o.k = v]: overwrite in place when the key is present, append
    otherwise (insertion order is kept). *)
Fixpoint set_field (k : string) (v : Json) (l : list (string * Json))
  : list (string * Json) :=
  match l with
  | [] => [(k, v)]
  | (k', v') :: l' =>
      if String.eqb k k' then (k, v) :: l' else (k', v') :: set_field k v l'
  end.

(** [const { k } = v]: the property, [undefined] for a value that has
    none, and a [TypeError] when [v] is [null].  [what] is the source
    text of [v], for the message. *)
Definition destructure_error (what k : string) : string :=
  "Cannot destructure property '" ++ k ++ "' of '" ++ what ++ "' as it is null.".

(** [!v] is [negb (truthy v)]. *)
Definition truthy (v : JsValue) : bool :=
  match v with
  | None => false
  | Some JNull => false
  | Some (JBool b) => b
  | Some (JNum z) => negb (z =? 0)
  | Some (JStr s) => negb (String.eqb s "")
  | Some (JArr _) => true
  | Some (JObj _) => true
  end.

(** [typeof v === 'object'] (true of [null] and of arrays, as in JS). *)
Definition typeof_object (v : Json) : bool :=
  match v with
  | JNull | JArr _ | JObj _ => true
  | _ => false
  end.

(** ['k' in v] for a [v] with [typeof v === 'object'] that is not
    [null]; an array has only index keys and [length]. *)
Definition has_key (k : string) (v : Json) : bool :=
  match v with
  | JObj l => match assoc k l with Some _ => true | None => false end
  | _ => false
  end.

(** Thrown values: [Error] objects with a [name] and a [message]. *)
Record JsError : Type := mkError { err_name : string; err_message : string }.

Inductive Result (A : Type) : Type :=
| Return (a : A)
| Throw (e : JsError).
Arguments Return {A} a.
Arguments Throw {A} e.

Definition bind {A B} (r : Result A) (k : A -> Result B) : Result B :=
  match r with
  | Return a => k a
  | Throw e => Throw e
  end.

Definition destructure (what : string) (v : Json) (k : string) : Result JsValue :=
  match v with
  | JNull => Throw (mkError "TypeError" (destructure_error what k))
  | _ => Return (get v k)
  end.

(** [try { body } catch (e) { handler e }] *)
Definition try_catch {A} (body : Result A) (handler : JsError -> Result A)
  : Result A :=
  match body with
  | Return a => Return a
  | Throw e => handler e
  end.

End Js.
Import Js.

Declare Scope js_scope.
Notation "x <- c ;; k" := (Js.bind c (fun x => k))
  (at level 61, c at next level, right associativity) : js_scope.
Local Open Scope js_scope.

(* ===================================================================== *)
(** ** The [ms] package (time-span strings) *)
(* ===================================================================== *)

Module Ms.

Definition digit_of (c : ascii) : option Z :=
  let n := Z.of_nat (nat_of_ascii c) in
  if (48 <=? n) && (n <=? 57) then Some (n - 48) else None.

(** Leading decimal digits of [s]: their value (if there is at least
    one digit) and the rest of the string. *)
Fixpoint read_digits (s : string) (acc : option Z) : option Z * string :=
  match s with
  | EmptyString => (acc, EmptyString)
  | String c r =>
      match digit_of c with
      | Some d =>
          read_digits r (Some (10 * match acc with Some a => a | None => 0 end + d))
      | None => (acc, s)
      end
  end.

(** Milliseconds per unit; the short unit names of the package. *)
Definition unit_ms (u : string) : option Z :=
  if String.eqb u "ms" then Some 1
  else if String.eqb u "s" then Some 1000
  else if String.eqb u "m" then Some 60000
  else if String.eqb u "h" then Some 3600000
  else if String.eqb u "d" then Some 86400000
  else if String.eqb u "w" then Some 604800000
  else if String.eqb u "y" then Some 31557600000
  else if String.eqb u "" then Some 1
  else None.

(** [ms(str)] for strings of the form [<digits><unit>]; [None] is
    [undefined]. *)
Definition ms (str : string) : option Z :=
  match read_digits str None with
  | (Some n, u) =>
      match unit_ms u with
      | Some f => Some (n * f)
      | None => None
      end
  | (None, _) => None
  end.

End Ms.

(* ===================================================================== *)
(** ** The [jsonwebtoken] package: [sign] and [verify] *)
(* ===================================================================== *)

Module Jsonwebtoken.

(** The HMAC algorithms [verify] accepts for a secret given as a string
    when no [algorithms] option is passed. *)
Inductive HmacAlg := HS256 | HS384 | HS512.

Definition hmac_alg_of_string (alg : string) : option HmacAlg :=
  if String.eqb alg "HS256" then Some HS256
  else if String.eqb alg "HS384" then Some HS384
  else if String.eqb alg "HS512" then Some HS512
  else None.

Record JoseHeader := mkHeader { alg : string; typ : string }.

(** What [jwtString.split('.')] and [decode(jwtString, {complete: true})]
    find in a string. *)
Inductive JwsView :=
| NotThreeParts
| Undecodable
| Decoded (header : JoseHeader) (payload : Json)
          (signature : string) (securedInput : string).

(** The primitives of the package's dependencies ([jws], [jwa], the
    base64url and JSON codecs), with the two facts about them that the
    properties below rely on: a compact serialization built by [jws.sign]
    decodes to the header, payload and signature it was built from, and
    a MAC is never the empty text.  Nothing is assumed about how the MAC
    depends on the key. *)
Class JwsPrimitives := {
  (** [jwa(alg).sign(securedInput, secret)], base64url text. *)
  hmacSign : HmacAlg -> string -> string -> string;
  (** [base64url(JSON(header)) + '.' + base64url(JSON(payload))] *)
  securedInput_of : JoseHeader -> Json -> string;
  (** splitting and decoding of a compact serialization *)
  jwsDecode : string -> JwsView;
  jwsDecode_signed : forall h p a k,
    jwsDecode (securedInput_of h p ++ "." ++ hmacSign a k (securedInput_of h p))
    = Decoded h p (hmacSign a k (securedInput_of h p)) (securedInput_of h p);
  hmacSign_not_blank : forall a k m, hmacSign a k m <> ""
}.

Definition JsonWebTokenError (msg : string) : JsError :=
  mkError "JsonWebTokenError" msg.
Definition TokenExpiredError : JsError :=
  mkError "TokenExpiredError" "jwt expired".
Definition NotBeforeError : JsError :=
  mkError "NotBeforeError" "jwt not active".
Definition TypeError (msg : string) : JsError := mkError "TypeError" msg.
Definition PlainError (msg : string) : JsError := mkError "Error" msg.

(** [Math.floor(Date.now() / 1000)] *)
Definition clock_seconds (now_ms : Z) : Z := now_ms / 1000.

(** [timespan(time, iat)] for a string [time]. *)
Definition timespan (time : string) (timestamp : Z) : option Z :=
  match Ms.ms time with
  | Some milliseconds => Some (timestamp + milliseconds / 1000)
  | None => None
  end.

Section WithPrimitives.
Context `{JwsPrimitives}.

(** [jws.sign({header, payload, secret})] *)
Definition jwsSign (h : JoseHeader) (payload : Json) (a : HmacAlg)
           (secret : string) : string :=
  let input := securedInput_of h payload in
  input ++ "." ++ hmacSign a secret input.

(** [sign(payload, secret, { expiresIn })] for an object literal
    [payload], at clock reading [now_ms]. *)
Definition sign (now_ms : Z) (payload : list (string * Json))
           (secretOrPrivateKey : string) (expiresIn : string)
  : Result string :=
  if String.eqb secretOrPrivateKey "" then
    Throw (PlainError "secretOrPrivateKey must have a value")
  else
    match assoc "exp" payload with
    | Some _ =>
        Throw (PlainError
          "Bad options.expiresIn option the payload already has an exp property.")
    | None =>
        let finish (timestamp : Z) : Result string :=
          let payload1 := set_field "iat" (JNum timestamp) payload in
          match timespan expiresIn timestamp with
          | None =>
              Throw (PlainError
                "expiresIn should be a number of seconds or string representing a timespan")
          | Some e =>
              let payload2 := set_field "exp" (JNum e) payload1 in
              Return (jwsSign (mkHeader "HS256" "JWT") (JObj payload2)
                              HS256 secretOrPrivateKey)
          end in
        (* [timestamp = payload.iat || Math.floor(Date.now() / 1000)] *)
        match assoc "iat" payload with
        | None => finish (clock_seconds now_ms)
        | Some (JNum i) => finish (if i =? 0 then clock_seconds now_ms else i)
        | Some _ => Throw (PlainError "iat should be a number of seconds")
        end
    end.

(** The checks of [verify] on the decoded payload: [nbf], then [exp]. *)
Definition check_claims (now_ms : Z) (payload : Json) : Result Json :=
  match payload with
  | JNull => Throw (TypeError "Cannot read properties of null")
  | _ =>
      _ <- match get payload "nbf" with
           | None => Return tt
           | Some (JNum nbf) =>
               if nbf >? clock_seconds now_ms
               then Throw NotBeforeError else Return tt
           | Some _ => Throw (JsonWebTokenError "invalid nbf value")
           end ;;
      _ <- match get payload "exp" with
           | None => Return tt
           | Some (JNum e) =>
               if clock_seconds now_ms >=? e
               then Throw TokenExpiredError else Return tt
           | Some _ => Throw (JsonWebTokenError "invalid exp value")
           end ;;
      Return payload
  end.

(** [verify(jwtString, secretOrPublicKey)] with no options and no
    callback, at clock reading [now_ms].  The package tests
    [parts[2].trim() !== ''] for the presence of a signature; here the
    signature segment is compared with the empty string. *)
Definition verify (now_ms : Z) (jwtString : JsValue)
           (secretOrPublicKey : string) : Result Json :=
  if negb (truthy jwtString) then
    Throw (JsonWebTokenError "jwt must be provided")
  else
    match jwtString with
    | Some (JStr s) =>
        match jwsDecode s with
        | NotThreeParts => Throw (JsonWebTokenError "jwt malformed")
        | Undecodable => Throw (JsonWebTokenError "invalid token")
        | Decoded header payload signature input =>
            let hasSignature := negb (String.eqb signature "") in
            let hasKey := negb (String.eqb secretOrPublicKey "") in
            if negb hasSignature && hasKey then
              Throw (JsonWebTokenError "jwt signature is required")
            else if hasSignature && negb hasKey then
              Throw (JsonWebTokenError "secret or public key must be provided")
            else if negb hasSignature then
              Throw (JsonWebTokenError
                "please specify none in algorithms to verify unsigned tokens")
            else
              match hmac_alg_of_string (alg header) with
              | None => Throw (JsonWebTokenError "invalid algorithm")
              | Some a =>
                  if String.eqb signature (hmacSign a secretOrPublicKey input)
                  then check_claims now_ms payload
                  else Throw (JsonWebTokenError "invalid signature")
              end
        end
    | _ => Throw (JsonWebTokenError "jwt must be a string")
    end.

End WithPrimitives.

End Jsonwebtoken.
Import Jsonwebtoken.

(* ===================================================================== *)
(** ** [process.env] *)
(* ===================================================================== *)

Record ProcessEnv := mkEnv {
  env_JWT_SECRET : option string;
  env_GOOGLE_OAUTH_REDIRECT_URL : option string;
  env_GOOGLE_CLIENT_ID : option string
}.

(** [process.env.X || fallback]: the empty string is falsy. *)
Definition env_or (v : option string) (fallback : string) : string :=
  match v with
  | Some s => if String.eqb s "" then fallback else s
  | None => fallback
  end.

(* ===================================================================== *)
(** ** [src/utils/jwt.handle.ts] *)
(* ===================================================================== *)

Module JwtHandle.
Section WithPrimitives.
Context `{JwsPrimitives}.
Variable env : ProcessEnv.

Definition JWT_SECRET : string :=
  env_or (env_JWT_SECRET env) "token.010101010101".

Definition generateToken (now_ms : Z) (id email : string) : Result string :=
  sign now_ms [("id", JStr id); ("email", JStr email)] JWT_SECRET "1h".

Definition verifyToken (now_ms : Z) (jwt : JsValue) : Result Json :=
  verify now_ms jwt JWT_SECRET.

Definition generateRefreshToken (now_ms : Z) (id : string) : Result string :=
  sign now_ms [("id", JStr id)] JWT_SECRET "7d".

(** [null] is [JNull]. *)
Definition verifyRefreshToken (now_ms : Z) (refreshToken : JsValue) : Result Json :=
  try_catch (verify now_ms refreshToken JWT_SECRET) (fun _ => Return JNull).

End WithPrimitives.
End JwtHandle.

(* ===================================================================== *)
(** ** The Express response object *)
(* ===================================================================== *)

Module Express.

Record Cookie := mkCookie {
  cookie_name : string;
  cookie_value : string;
  httpOnly : bool;
  secure : bool;
  sameSite : string;
  maxAge : Z                      (* milliseconds *)
}.

Inductive Sent :=
| NotSent
| SentJson (body : Json)
| SentRedirect (location : string).

Record Response := mkResponse {
  statusCode : Z;
  cookies : list Cookie;          (* in the order they were set *)
  sent : Sent
}.

(** A fresh response: status 200, nothing set, nothing sent. *)
Definition fresh : Response := mkResponse 200 [] NotSent.

Definition status (code : Z) (res : Response) : Response :=
  mkResponse code (cookies res) (sent res).

Definition cookie (c : Cookie) (res : Response) : Response :=
  mkResponse (statusCode res) (cookies res ++ [c]) (sent res).

Definition json (body : Json) (res : Response) : Response :=
  mkResponse (statusCode res) (cookies res) (SentJson body).

(** [res.redirect(url)] answers 302. *)
Definition redirect (url : string) (res : Response) : Response :=
  mkResponse 302 (cookies res) (SentRedirect url).

(** [{ message: msg }] *)
Definition message (msg : string) : Json := JObj [("message", JStr msg)].

(** How a block that has written to the response ends: normally, or by
    a throw, in both cases with the response as it stands at that
    point. *)
Inductive Completion :=
| Completed (res : Response)
| Thrown (e : JsError) (res : Response).

(** [try { block } catch (e) { handler }] around such a block: the
    handler goes on with the response the block left. *)
Definition try_catch_res (block : Completion)
           (handler : JsError -> Response -> Result Response) : Result Response :=
  match block with
  | Completed res => Return res
  | Thrown e res => handler e res
  end.

End Express.

(* ===================================================================== *)
(** ** [URLSearchParams.prototype.toString] *)
(* ===================================================================== *)

Module UrlSearchParams.

Definition hex_digit (n : nat) : ascii :=
  match n with
  | 0%nat => "0" | 1%nat => "1" | 2%nat => "2" | 3%nat => "3"
  | 4%nat => "4" | 5%nat => "5" | 6%nat => "6" | 7%nat => "7"
  | 8%nat => "8" | 9%nat => "9" | 10%nat => "A" | 11%nat => "B"
  | 12%nat => "C" | 13%nat => "D" | 14%nat => "E" | _ => "F"
  end%char.

(** Bytes left as they are by the form-urlencoded serializer: ASCII
    letters and digits, [*], [-], [.] and [_]. *)
Definition unreserved (c : ascii) : bool :=
  let n := nat_of_ascii c in
  ((48 <=? n) && (n <=? 57) || (65 <=? n) && (n <=? 90)
   || (97 <=? n) && (n <=? 122)
   || (n =? 42) || (n =? 45) || (n =? 46) || (n =? 95))%nat.

Fixpoint encode (s : string) : string :=
  match s with
  | EmptyString => EmptyString
  | String c r =>
      if unreserved c then String c (encode r)
      else if (nat_of_ascii c =? 32)%nat then String "+"%char (encode r)
      else
        let n := nat_of_ascii c in
        String "%"%char
          (String (hex_digit (n / 16)) (String (hex_digit (n mod 16)) (encode r)))
  end.

Fixpoint toString (params : list (string * string)) : string :=
  match params with
  | [] => ""
  | [(k, v)] => encode k ++ "=" ++ encode v
  | (k, v) :: rest => encode k ++ "=" ++ encode v ++ "&" ++ toString rest
  end.

End UrlSearchParams.

(* ===================================================================== *)
(** ** [src/modules/auth/auth_controller.ts] *)
(* ===================================================================== *)

Module AuthController.
Import Express.

(** What [loginUser] resolves to: a sentinel string or the session
    object [{ user, token, refreshToken }]. *)
Inductive LoginResponse :=
| LoginString (s : string)
| LoginSession (user : Json) (token refreshToken : string).

(** [responseUser.token] and [responseUser.refreshToken], as the text
    [res.cookie] stores, and as the value [res.json] serializes; both
    properties of a string are [undefined]. *)
Definition cookie_text (v : option string) : string :=
  match v with Some s => s | None => "undefined" end.

(** [responseUser === lit] *)
Definition is_string (r : LoginResponse) (lit : string) : bool :=
  match r with
  | LoginString s => String.eqb s lit
  | LoginSession _ _ _ => false
  end.

Definition session_token (r : LoginResponse) : option string :=
  match r with LoginSession _ t _ => Some t | LoginString _ => None end.
Definition session_refreshToken (r : LoginResponse) : option string :=
  match r with LoginSession _ _ rt => Some rt | LoginString _ => None end.
Definition session_user (r : LoginResponse) : JsValue :=
  match r with LoginSession u _ _ => Some u | LoginString _ => None end.

(** An object literal whose [undefined] properties are dropped by
    [JSON.stringify]. *)
Fixpoint object_literal (fields : list (string * JsValue)) : list (string * Json) :=
  match fields with
  | [] => []
  | (k, Some v) :: rest => (k, v) :: object_literal rest
  | (_, None) :: rest => object_literal rest
  end.

Definition session_cookie (name value : string) (age : Z) : Cookie :=
  mkCookie name value true false "none" age.

Section Controllers.
(** The service layer, [auth_service.js].  [loginCtrl] reads [name],
    [email] and [password] off the parsed body of the request, an
    object: a property it lacks reads [undefined]. *)
Variable registerNewUser : Json -> Result Json.
Variable loginUser : JsValue -> JsValue -> JsValue -> Result LoginResponse.

Definition registerCtrl (body : Json) (res : Response) : Result Response :=
  try_catch
    (responseUser <- registerNewUser body ;;
     Return (json responseUser res))
    (fun error => Return (json (message (err_message error)) (status 500 res))).

Definition loginCtrl (body : Json) (res : Response) : Result Response :=
  try_catch
    (let name := get body "name" in
     let email := get body "email" in
     let password := get body "password" in
     responseUser <- loginUser name email password ;;
     if is_string responseUser "INCORRECT_PASSWORD" then
       Return (json (message "Contraseña incorrecta") (status 403 res))
     else if is_string responseUser "NOT_FOUND_USER" then
       Return (json (message "Usuario no encontrado") (status 404 res))
     else
         let res1 :=
           cookie (session_cookie "token"
                     (cookie_text (session_token responseUser)) 86400000) res in
         let res2 :=
           cookie (session_cookie "refreshToken"
                     (cookie_text (session_refreshToken responseUser))
                     (7 * 24 * 60 * 60 * 1000)) res1 in
         Return (json
           (JObj (object_literal
              [("user", session_user responseUser);
               ("token", option_map JStr (session_token responseUser));
               ("refreshToken",
                 option_map JStr (session_refreshToken responseUser))]))
           res2))
    (fun error => Return (json (message (err_message error)) (status 500 res))).

End Controllers.

(** [!s] for an environment value. *)
Definition env_falsy (v : option string) : bool :=
  match v with
  | None => true
  | Some s => String.eqb s ""
  end.

(** An environment value placed in a [URLSearchParams] record: an unset
    one becomes the text [undefined]. *)
Definition env_text (v : option string) : string :=
  match v with Some s => s | None => "undefined" end.

Definition rootUrl : string := "https://accounts.google.com/o/oauth2/v2/auth".

Definition googleAuthCtrl (env : ProcessEnv) (res : Response) : Result Response :=
  let redirectUri := env_GOOGLE_OAUTH_REDIRECT_URL env in
  if env_falsy redirectUri then
    Return (json (message "Error interno de configuración") (status 500 res))
  else
    let options :=
      [("redirect_uri", env_text (env_GOOGLE_OAUTH_REDIRECT_URL env));
       ("client_id", env_text (env_GOOGLE_CLIENT_ID env));
       ("access_type", "offline");
       ("response_type", "code");
       ("prompt", "consent");
       ("scope",
        "https://www.googleapis.com/auth/userinfo.profile https://www.googleapis.com/auth/userinfo.email openid")] in
    let fullUrl := rootUrl ++ "?" ++ UrlSearchParams.toString options in
    Return (redirect fullUrl res).

(** The session data [googleAuth] resolves to. *)
Record GoogleUser := mkGoogleUser { gu_email : string }.
Record AuthData := mkAuthData {
  ad_token : string;
  ad_refreshToken : string;
  ad_user : GoogleUser
}.

(** What a truthy result of [googleAuth] holds, property by property:
    [token], [refreshToken], [user] and [user.email] may each be
    missing.  [ar_user] is [None] when [authData.user] is [undefined] or
    [null], and [Some None] when the user has no [email]. *)
Record AuthResult := mkAuthResult {
  ar_token : option string;
  ar_refreshToken : option string;
  ar_user : option (option string)
}.

(** Session data is a result with every property present. *)
Definition complete (ad : AuthData) : AuthResult :=
  mkAuthResult (Some (ad_token ad)) (Some (ad_refreshToken ad))
               (Some (Some (gu_email (ad_user ad)))).

(** A value inside a template literal: [undefined] reads [undefined]. *)
Definition template_text (v : option string) : string :=
  match v with Some s => s | None => "undefined" end.

Section GoogleCallback.
Variable googleAuth : JsValue -> Result (option AuthResult).

(** [code] is [req.query.code].  Both cookies are written before
    [authData.user.email] is read, so a throw there reaches the [catch]
    with the cookies on the response. *)
Definition googleAuthCallback (code : JsValue) (res : Response)
  : Result Response :=
  try_catch_res
    (if negb (truthy code) then
       Completed (json (message "Código de autorización faltante") (status 400 res))
     else
       match googleAuth code with
       | Throw e => Thrown e res
       | Return None => Completed (redirect "/login?error=authentication_failed" res)
       | Return (Some authData) =>
           let res1 :=
             cookie (session_cookie "token" (cookie_text (ar_token authData))
                       86400000) res in
           let res2 :=
             cookie (session_cookie "refreshToken"
                       (cookie_text (ar_refreshToken authData))
                       (7 * 24 * 60 * 60 * 1000)) res1 in
           match ar_user authData with
           | None =>
               Thrown (mkError "TypeError"
                         "Cannot read properties of undefined (reading 'email')") res2
           | Some email =>
               Completed (redirect
                 ("http://localhost:4200/?token=" ++ template_text (ar_token authData)
                    ++ "&email=" ++ template_text email) res2)
           end
       end)
    (fun _ res' => Return (redirect "/login?error=server_error" res')).

End GoogleCallback.

End AuthController.

(* ===================================================================== *)
(** ** [src/routes/user_routes.ts]: [POST /auth/refresh] *)
(* ===================================================================== *)

Module UserRoutes.
Import Express.

(** A user document, as far as the handler reads it. *)
Record User := mkUser { user_id : string; user_email : string }.

Section Refresh.
Context `{JwsPrimitives}.
Variable env : ProcessEnv.
(** [UserModel.findById]: [None] is [null]. *)
Variable findById : JsValue -> Result (option User).

(** The handler reads the clock twice: when it verifies the refresh
    token ([now_verify]) and when it mints the new access token
    ([now_mint]). *)
Definition refresh (now_verify now_mint : Z) (body : Json) (res : Response)
  : Result Response :=
  refreshToken <- destructure "req.body" body "refreshToken" ;;
  if negb (truthy refreshToken) then
    Return (json (message "Refresh token es requerido") (status 400 res))
  else
    try_catch
      (payload <- JwtHandle.verifyRefreshToken env now_verify refreshToken ;;
       if negb (truthy (Some payload)) || negb (typeof_object payload)
          || negb (has_key "id" payload) then
         Return (json (message "Refresh token inválido o expirado") (status 401 res))
       else
         user <- findById (get payload "id") ;;
         match user with
         | None => Return (json (message "Usuario no encontrado") (status 401 res))
         | Some u =>
             newToken <- JwtHandle.generateToken env now_mint
                           (user_id u) (user_email u) ;;
             Return (json (JObj [("token", JStr newToken)]) res)
         end)
      (fun _ => Return (json (message "Error interno del servidor") (status 500 res))).

End Refresh.
End UserRoutes.

(* ===================================================================== *)
(** ** A reference instance of the primitives

    A self-delimiting text codec and a keyed tag.  It is not the wire
    format of the real package (base64url over JSON, HMAC-SHA2); it shows
    that the interface [JwsPrimitives] is inhabited and lets the handlers
    be run on concrete requests. *)
(* ===================================================================== *)

Module ReferenceCodec.

Fixpoint enc_pos (p : positive) : string :=
  match p with
  | xH => ";"
  | xO q => String "0" (enc_pos q)
  | xI q => String "1" (enc_pos q)
  end.

Fixpoint dec_pos (s : string) : option (positive * string) :=
  match s with
  | EmptyString => None
  | String c r =>
      if Ascii.eqb c "0" then
        match dec_pos r with Some (q, t) => Some (xO q, t) | None => None end
      else if Ascii.eqb c "1" then
        match dec_pos r with Some (q, t) => Some (xI q, t) | None => None end
      else if Ascii.eqb c ";" then Some (xH, r)
      else None
  end.

Definition enc_Z (z : Z) : string :=
  match z with
  | Z0 => "z"
  | Zpos p => String "+" (enc_pos p)
  | Zneg p => String "-" (enc_pos p)
  end.

Definition dec_Z (s : string) : option (Z * string) :=
  match s with
  | EmptyString => None
  | String c r =>
      if Ascii.eqb c "z" then Some (Z0, r)
      else if Ascii.eqb c "+" then
        match dec_pos r with Some (p, t) => Some (Zpos p, t) | None => None end
      else if Ascii.eqb c "-" then
        match dec_pos r with Some (p, t) => Some (Zneg p, t) | None => None end
      else None
  end.

(** The first [n] characters of [s] and what follows them. *)
Fixpoint split_at (n : nat) (s : string) : option (string * string) :=
  match n with
  | O => Some (EmptyString, s)
  | S m =>
      match s with
      | EmptyString => None
      | String c r =>
          match split_at m r with
          | Some (a, b) => Some (String c a, b)
          | None => None
          end
      end
  end.

(** A string is written as its length followed by its characters. *)
Definition enc_str (s : string) : string :=
  enc_pos (Pos.of_succ_nat (String.length s)) ++ s.

Definition dec_str (s : string) : option (string * string) :=
  match dec_pos s with
  | Some (p, r) => split_at (Nat.pred (Pos.to_nat p)) r
  | None => None
  end.

Fixpoint enc_json (j : Json) : string :=
  match j with
  | JNull => "n"
  | JBool true => "t"
  | JBool false => "f"
  | JNum z => String "#" (enc_Z z)
  | JStr s => String "s" (enc_str s)
  | JArr l =>
      String "["
        ((fix elems (l : list Json) : string :=
            match l with
            | [] => "]"
            | x :: r => String "," (enc_json x ++ elems r)
            end) l)
  | JObj l =>
      String "{"
        ((fix fields (l : list (string * Json)) : string :=
            match l with
            | [] => "}"
            | (k, v) :: r => String "," (enc_str k ++ enc_json v ++ fields r)
            end) l)
  end.

Definition enc_elems : list Json -> string :=
  fix elems (l : list Json) : string :=
    match l with
    | [] => "]"
    | x :: r => String "," (enc_json x ++ elems r)
    end.

Definition enc_fields : list (string * Json) -> string :=
  fix fields (l : list (string * Json)) : string :=
    match l with
    | [] => "}"
    | (k, v) :: r => String "," (enc_str k ++ enc_json v ++ fields r)
    end.

Fixpoint dec_json (fuel : nat) (s : string) : option (Json * string) :=
  match fuel, s with
  | S f, String c r =>
      if Ascii.eqb c "n" then Some (JNull, r)
      else if Ascii.eqb c "t" then Some (JBool true, r)
      else if Ascii.eqb c "f" then Some (JBool false, r)
      else if Ascii.eqb c "#" then
        match dec_Z r with Some (z, t) => Some (JNum z, t) | None => None end
      else if Ascii.eqb c "s" then
        match dec_str r with Some (x, t) => Some (JStr x, t) | None => None end
      else if Ascii.eqb c "[" then
        match dec_elems f r with Some (l, t) => Some (JArr l, t) | None => None end
      else if Ascii.eqb c "{" then
        match dec_fields f r with Some (l, t) => Some (JObj l, t) | None => None end
      else None
  | _, _ => None
  end
with dec_elems (fuel : nat) (s : string) : option (list Json * string) :=
  match fuel, s with
  | S f, String c r =>
      if Ascii.eqb c "]" then Some ([], r)
      else if Ascii.eqb c "," then
        match dec_json f r with
        | Some (x, t) =>
            match dec_elems f t with
            | Some (l, u) => Some (x :: l, u)
            | None => None
            end
        | None => None
        end
      else None
  | _, _ => None
  end
with dec_fields (fuel : nat) (s : string)
  : option (list (string * Json) * string) :=
  match fuel, s with
  | S f, String c r =>
      if Ascii.eqb c "}" then Some ([], r)
      else if Ascii.eqb c "," then
        match dec_str r with
        | Some (k, t) =>
            match dec_json f t with
            | Some (v, u) =>
                match dec_fields f u with
                | Some (l, w) => Some ((k, v) :: l, w)
                | None => None
                end
            | None => None
            end
        | None => None
        end
      else None
  | _, _ => None
  end.

Fixpoint take (n : nat) (s : string) : string :=
  match n, s with
  | S m, String c r => String c (take m r)
  | _, _ => EmptyString
  end.

Definition ref_securedInput (h : JoseHeader) (p : Json) : string :=
  enc_str (alg h) ++ enc_str (typ h) ++ enc_json p.

Definition ref_decode (s : string) : JwsView :=
  match dec_str s with
  | Some (a, r1) =>
      match dec_str r1 with
      | Some (t, r2) =>
          match dec_json (String.length r2) r2 with
          | Some (p, String c sig) =>
              if Ascii.eqb c "." then
                Decoded (mkHeader a t) p sig
                  (take (String.length s - S (String.length sig)) s)
              else Undecodable
          | Some (_, EmptyString) => Undecodable
          | None => NotThreeParts
          end
      | None => NotThreeParts
      end
  | None => NotThreeParts
  end.

Definition alg_name (a : HmacAlg) : string :=
  match a with HS256 => "HS256" | HS384 => "HS384" | HS512 => "HS512" end.

(** A keyed tag: the algorithm, the key and the message, spelled out. *)
Definition ref_tag (a : HmacAlg) (key msg : string) : string :=
  alg_name a ++ ":" ++ enc_str key ++ msg.

End ReferenceCodec.

(* ===================================================================== *)
(** ** Vocabulary of the properties *)
(* ===================================================================== *)

(** The payload [sign] builds for an access token minted at [now_ms]. *)
Definition access_payload (now_ms : Z) (id email : string) : Json :=
  JObj [("id", JStr id); ("email", JStr email);
        ("iat", JNum (clock_seconds now_ms));
        ("exp", JNum (clock_seconds now_ms + 3600))].

(** The payload [sign] builds for a refresh token minted at [now_ms]. *)
Definition refresh_payload (now_ms : Z) (id : string) : Json :=
  JObj [("id", JStr id);
        ("iat", JNum (clock_seconds now_ms));
        ("exp", JNum (clock_seconds now_ms + 604800))].

Definition jwt_header : JoseHeader := mkHeader "HS256" "JWT".

(** [decode(token)] of the package: the payload of a compact
    serialization, without any check. *)
Definition decode `{JwsPrimitives} (token : string) : option Json :=
  match jwsDecode token with
  | Decoded _ payload _ _ => Some payload
  | _ => None
  end.

Section ResponseVocabulary.
Import Express AuthController UserRoutes.

(** The query string of the authorization URL after the two configured
    parameters. *)
Definition fixed_parameters : string :=
  "&access_type=offline&response_type=code&prompt=consent&scope=https%3A%2F%2Fwww.googleapis.com%2Fauth%2Fuserinfo.profile+https%3A%2F%2Fwww.googleapis.com%2Fauth%2Fuserinfo.email+openid".

Definition authorization_url (redirect_uri client_id : string) : string :=
  "https://accounts.google.com/o/oauth2/v2/auth"
    ++ "?redirect_uri=" ++ UrlSearchParams.encode redirect_uri
    ++ "&client_id=" ++ UrlSearchParams.encode client_id
    ++ fixed_parameters.

(** The claim as the specification words it: a 500 when the variable is
    unset, a redirect in every other case. *)
Definition redirects_whenever_set (env : ProcessEnv) : Prop :=
  (env_GOOGLE_OAUTH_REDIRECT_URL env = None ->
   googleAuthCtrl env fresh
   = Return (mkResponse 500 []
               (SentJson (JObj [("message", JStr "Error interno de configuración")]))))
  /\
  (env_GOOGLE_OAUTH_REDIRECT_URL env <> None ->
   exists url, googleAuthCtrl env fresh = Return (mkResponse 302 [] (SentRedirect url))).


Definition invalid_or_expired : Json := message "Refresh token inválido o expirado".

Definition answer (code : Z) (msg : string) : Result Response :=
  Return (mkResponse code [] (SentJson (JObj [("message", JStr msg)]))).

End ResponseVocabulary.

Section RejectedTokens.
Context `{JwsPrimitives}.
Variable env : ProcessEnv.


End RejectedTokens.

Section MissingToken.
Import Express UserRoutes.
Context `{JwsPrimitives}.


End MissingToken.

(* ===================================================================== *)
(** ** Sample requests and collaborators *)
(* ===================================================================== *)

Section Samples.
Import Express AuthController UserRoutes.
Context `{JwsPrimitives}.

(** An environment with nothing set, and one with a secret. *)
Definition env_unset : ProcessEnv := mkEnv None None None.
Definition env_secret : ProcessEnv := mkEnv (Some "s3cret") None None.

Definition t0 : Z := 1700000000123.

Definition minted (r : Result string) : string :=
  match r with
  | Return tok => tok
  | Throw _ => ""
  end.

Definition sample_users : list User := [mkUser "u1" "a@x.com"].

(** A store with one user; an [id] that is not a string is a cast
    error, as in the object-document mapper. *)
Definition sample_findById (v : JsValue) : Result (option User) :=
  match v with
  | Some (JStr id) =>
      Return (find (fun u => String.eqb (user_id u) id) sample_users)
  | _ => Throw (mkError "CastError" "Cast to ObjectId failed")
  end.

Definition failing_findById (_ : JsValue) : Result (option User) :=
  Throw (mkError "MongoNetworkError" "connection refused").

Definition refresh_body (tok : string) : Json := JObj [("refreshToken", JStr tok)].





Definition sample_auth_data : AuthData :=
  mkAuthData "access-1" "refresh-1" (mkGoogleUser "a@x.com").

Definition sample_googleAuth (_ : JsValue) : Result (option AuthResult) :=
  Return (Some (complete sample_auth_data)).



Definition access_token_1 : string :=
  minted (JwtHandle.generateToken env_unset t0 "u1" "a@x.com").
Definition refresh_token_1 : string :=
  minted (JwtHandle.generateRefreshToken env_unset t0 "u1").


End Samples.

(* ===================================================================== *)
(** ** Further vocabulary and samples *)
(* ===================================================================== *)

(** Occurrences of a character in a string. *)
Fixpoint count_char (c : ascii) (s : string) : nat :=
  match s with
  | EmptyString => 0%nat
  | String x r => ((if Ascii.eqb x c then 1 else 0) + count_char c r)%nat
  end.

(** The attributes both session cookies are set with, and the two names
    and max-ages there are. *)
Definition session_attributes (c : Express.Cookie) : Prop :=
  Express.httpOnly c = true /\ Express.secure c = false /\
  Express.sameSite c = "none" /\
  ((Express.cookie_name c = "token" /\ Express.maxAge c = 86400000) \/
   (Express.cookie_name c = "refreshToken" /\ Express.maxAge c = 604800000)).

Section MoreSamples.
Import Express AuthController UserRoutes.
Context `{JwsPrimitives}.

Definition env_empty_secret : ProcessEnv := mkEnv (Some "") None None.

Definition env_no_client_id : ProcessEnv :=
  mkEnv None (Some "http://localhost:9000/api/auth/google/callback") None.

Definition env_google : ProcessEnv :=
  mkEnv None (Some "http://localhost:9000/api/auth/google/callback?x=1&y=2")
        (Some "client&1").

(** A token signed with the server's secret whose payload has no [id]. *)
Definition token_without_id : string :=
  minted (sign t0 [("sub", JStr "u1")] (JwtHandle.JWT_SECRET env_unset) "1h").

Definition payload_without_id : Json :=
  JObj [("sub", JStr "u1"); ("iat", JNum 1700000000); ("exp", JNum 1700003600)].

Definition refreshed_response : Response :=
  mkResponse 200 []
    (SentJson (JObj [("token",
       JStr (minted (JwtHandle.generateToken env_unset (t0 + 1001) "u1" "a@x.com")))])).

(** A truthy result with both tokens and no [user]. *)
Definition userless_googleAuth (_ : JsValue) : Result (option AuthResult) :=
  Return (Some (mkAuthResult (Some "access-1") (Some "refresh-1") None)).

Definition null_googleAuth (_ : JsValue) : Result (option AuthResult) :=
  Return None.

Definition failing_googleAuth (_ : JsValue) : Result (option AuthResult) :=
  Throw (mkError "AxiosError" "Request failed with status code 400").

Definition sample_register (body : Json) : Result Json :=
  Return (JObj [("name", JStr "A"); ("email", JStr "a@x.com")]).

End MoreSamples.

(* ===================================================================== *)
(** * Properties *)
(* ===================================================================== *)

(** ** Strings *)

Lemma append_assoc (a b c : string) : ((a ++ b) ++ c = a ++ (b ++ c))%string.
Proof. induction a as [| x a IH]; simpl; [reflexivity | now rewrite IH]. Qed.

Lemma length_append (a b : string) :
  String.length (a ++ b) = (String.length a + String.length b)%nat.
Proof. induction a as [| x a IH]; simpl; [reflexivity | now rewrite IH]. Qed.

Lemma append_not_empty_r (a b : string) : b <> "" -> (a ++ b)%string <> "".
Proof. destruct a; simpl; [auto | discriminate]. Qed.

(** ** Induction on JSON trees, through the nested lists *)

Section JsonInduction.
Variable P : Json -> Prop.
Hypothesis Hnull : P JNull.
Hypothesis Hbool : forall b, P (JBool b).
Hypothesis Hnum : forall z, P (JNum z).
Hypothesis Hstr : forall s, P (JStr s).
Hypothesis Harr : forall l, Forall P l -> P (JArr l).
Hypothesis Hobj : forall l, Forall (fun kv => P (snd kv)) l -> P (JObj l).

Fixpoint Json_nested_ind (j : Json) : P j :=
  match j with
  | JNull => Hnull
  | JBool b => Hbool b
  | JNum z => Hnum z
  | JStr s => Hstr s
  | JArr l =>
      Harr l
        ((fix all (l : list Json) : Forall P l :=
            match l with
            | [] => Forall_nil _
            | x :: r => Forall_cons x (Json_nested_ind x) (all r)
            end) l)
  | JObj l =>
      Hobj l
        ((fix all (l : list (string * Json)) : Forall (fun kv => P (snd kv)) l :=
            match l with
            | [] => Forall_nil _
            | kv :: r =>
                Forall_cons (P := fun kv => P (snd kv)) kv
                  (Json_nested_ind (snd kv)) (all r)
            end) l)
  end.
End JsonInduction.

(** ** The reference codec decodes what it encodes *)

Module ReferenceCodecFacts.
Import ReferenceCodec.

Lemma dec_enc_pos (p : positive) (rest : string) :
  dec_pos (enc_pos p ++ rest) = Some (p, rest).
Proof.
  induction p as [q IH | q IH |]; simpl; try rewrite IH; reflexivity.
Qed.

Lemma dec_enc_Z (z : Z) (rest : string) :
  dec_Z (enc_Z z ++ rest) = Some (z, rest).
Proof.
  destruct z; simpl; try rewrite dec_enc_pos; reflexivity.
Qed.

Lemma split_at_length (s rest : string) :
  split_at (String.length s) (s ++ rest) = Some (s, rest).
Proof.
  induction s as [| c s IH]; simpl; [reflexivity | now rewrite IH].
Qed.

Lemma dec_enc_str (s rest : string) :
  dec_str (enc_str s ++ rest) = Some (s, rest).
Proof.
  unfold dec_str, enc_str.
  rewrite append_assoc, dec_enc_pos, SuccNat2Pos.id_succ.
  apply split_at_length.
Qed.

Lemma enc_json_arr (l : list Json) :
  enc_json (JArr l) = String "[" (enc_elems l).
Proof. reflexivity. Qed.

Lemma enc_json_obj (l : list (string * Json)) :
  enc_json (JObj l) = String "{" (enc_fields l).
Proof. reflexivity. Qed.

Lemma enc_json_length_pos (j : Json) : (1 <= String.length (enc_json j))%nat.
Proof. destruct j as [| [] | | | |]; simpl; lia. Qed.

Lemma enc_elems_length_pos (l : list Json) : (1 <= String.length (enc_elems l))%nat.
Proof. destruct l; simpl; lia. Qed.

Lemma enc_fields_length_pos (l : list (string * Json)) :
  (1 <= String.length (enc_fields l))%nat.
Proof. destruct l as [| [k v] l]; simpl; lia. Qed.

(** Enough fuel: at least the length of the encoding. *)
Definition decodes (j : Json) : Prop :=
  forall fuel rest,
    (String.length (enc_json j) <= fuel)%nat ->
    dec_json fuel (enc_json j ++ rest) = Some (j, rest).

Lemma dec_enc_elems (l : list Json) :
  Forall decodes l ->
  forall fuel rest,
    (String.length (enc_elems l) <= fuel)%nat ->
    dec_elems fuel (enc_elems l ++ rest) = Some (l, rest).
Proof.
  induction 1 as [| x r Hx _ IH]; intros fuel rest Hfuel.
  - destruct fuel as [| f]; simpl in *; [lia | reflexivity].
  - destruct fuel as [| f]; [simpl in Hfuel; lia |].
    change (enc_elems (x :: r)) with (String "," (enc_json x ++ enc_elems r)) in *.
    simpl in Hfuel. rewrite length_append in Hfuel.
    pose proof (enc_json_length_pos x). pose proof (enc_elems_length_pos r).
    simpl. rewrite append_assoc, Hx by lia. rewrite IH by lia. reflexivity.
Qed.

Lemma dec_enc_fields (l : list (string * Json)) :
  Forall (fun kv => decodes (snd kv)) l ->
  forall fuel rest,
    (String.length (enc_fields l) <= fuel)%nat ->
    dec_fields fuel (enc_fields l ++ rest) = Some (l, rest).
Proof.
  induction 1 as [| [k v] r Hv _ IH]; intros fuel rest Hfuel.
  - destruct fuel as [| f]; simpl in *; [lia | reflexivity].
  - destruct fuel as [| f]; [simpl in Hfuel; lia |].
    change (enc_fields ((k, v) :: r))
      with (String "," (enc_str k ++ enc_json v ++ enc_fields r)) in *.
    simpl in Hfuel, Hv. rewrite !length_append in Hfuel.
    pose proof (enc_json_length_pos v). pose proof (enc_fields_length_pos r).
    simpl. rewrite append_assoc, dec_enc_str.
    rewrite append_assoc, Hv by lia. rewrite IH by lia. reflexivity.
Qed.

Lemma dec_enc_json (j : Json) : decodes j.
Proof.
  induction j as [| b | z | s | l IH | l IH] using Json_nested_ind;
    intros fuel rest Hfuel;
    match type of Hfuel with
    | (String.length (enc_json ?j) <= _)%nat => pose proof (enc_json_length_pos j)
    end;
    (destruct fuel as [| f]; [lia |]).
  - reflexivity.
  - destruct b; reflexivity.
  - simpl. rewrite dec_enc_Z. reflexivity.
  - simpl. rewrite dec_enc_str. reflexivity.
  - rewrite enc_json_arr in *. simpl in Hfuel. simpl.
    rewrite dec_enc_elems by (auto; lia). reflexivity.
  - rewrite enc_json_obj in *. simpl in Hfuel. simpl.
    rewrite dec_enc_fields by (auto; lia). reflexivity.
Qed.

Lemma take_length (a b : string) : take (String.length a) (a ++ b) = a.
Proof. induction a as [| c a IH]; simpl; [now destruct b | now rewrite IH]. Qed.

Lemma ref_decode_signed (h : JoseHeader) (p : Json) (sig : string) :
  ref_decode (ref_securedInput h p ++ "." ++ sig)
  = Decoded h p sig (ref_securedInput h p).
Proof.
  unfold ref_decode.
  set (s := (ref_securedInput h p ++ "." ++ sig)%string).
  assert (H1 : dec_str s
               = Some (alg h, (enc_str (typ h) ++ enc_json p ++ "." ++ sig)%string)).
  { unfold s, ref_securedInput. rewrite !append_assoc. apply dec_enc_str. }
  rewrite H1, dec_enc_str.
  rewrite dec_enc_json by (rewrite length_append; lia).
  simpl.
  replace (String.length s - S (String.length sig))%nat
    with (String.length (ref_securedInput h p))
    by (unfold s; rewrite length_append; simpl; lia).
  unfold s. rewrite take_length. destruct h; reflexivity.
Qed.

Lemma ref_tag_not_empty (a : HmacAlg) (key msg : string) : ref_tag a key msg <> "".
Proof. destruct a; discriminate. Qed.

#[export] Instance reference : JwsPrimitives := {|
  hmacSign := ref_tag;
  securedInput_of := ref_securedInput;
  jwsDecode := ref_decode;
  jwsDecode_signed := fun h p a k =>
    ref_decode_signed h p (ref_tag a k (ref_securedInput h p));
  hmacSign_not_blank := ref_tag_not_empty
|}.

End ReferenceCodecFacts.

(** ** Signing and verifying *)

Lemma env_or_not_empty (v : option string) (fallback : string) :
  fallback <> "" -> env_or v fallback <> "".
Proof.
  intros Hf. unfold env_or. destruct v as [s |]; [| exact Hf].
  destruct (String.eqb_spec s ""); assumption.
Qed.

Lemma ms_1h : Ms.ms "1h" = Some 3600000.
Proof. reflexivity. Qed.

Lemma ms_7d : Ms.ms "7d" = Some 604800000.
Proof. reflexivity. Qed.

Section TokenFacts.
Context `{JwsPrimitives}.
Variable env : ProcessEnv.

Lemma JWT_SECRET_not_empty : JwtHandle.JWT_SECRET env <> "".
Proof. apply env_or_not_empty. discriminate. Qed.

Lemma JWT_SECRET_eqb_empty : String.eqb (JwtHandle.JWT_SECRET env) "" = false.
Proof. apply String.eqb_neq, JWT_SECRET_not_empty. Qed.

Lemma generateToken_eq (now_ms : Z) (id email : string) :
  JwtHandle.generateToken env now_ms id email
  = Return (jwsSign jwt_header (access_payload now_ms id email) HS256
              (JwtHandle.JWT_SECRET env)).
Proof.
  unfold JwtHandle.generateToken, sign, timespan.
  rewrite JWT_SECRET_eqb_empty, ms_1h. reflexivity.
Qed.

Lemma generateRefreshToken_eq (now_ms : Z) (id : string) :
  JwtHandle.generateRefreshToken env now_ms id
  = Return (jwsSign jwt_header (refresh_payload now_ms id) HS256
              (JwtHandle.JWT_SECRET env)).
Proof.
  unfold JwtHandle.generateRefreshToken, sign, timespan.
  rewrite JWT_SECRET_eqb_empty, ms_7d. reflexivity.
Qed.

Lemma jwsSign_not_empty (h : JoseHeader) (p : Json) (a : HmacAlg) (k : string) :
  jwsSign h p a k <> "".
Proof.
  unfold jwsSign. apply append_not_empty_r. discriminate.
Qed.

Lemma jwsSign_truthy (h : JoseHeader) (p : Json) (a : HmacAlg) (k : string) :
  truthy (Some (JStr (jwsSign h p a k))) = true.
Proof.
  simpl. apply negb_true_iff, String.eqb_neq, jwsSign_not_empty.
Qed.

(** Verifying a token signed with key [k] under key [k']: the claims are
    checked exactly when the two keys give the same tag. *)
Lemma verify_jwsSign (now_ms : Z) (p : Json) (k k' : string) :
  k' <> "" ->
  verify now_ms (Some (JStr (jwsSign jwt_header p HS256 k))) k'
  = if String.eqb (hmacSign HS256 k (securedInput_of jwt_header p))
                  (hmacSign HS256 k' (securedInput_of jwt_header p))
    then check_claims now_ms p
    else Throw (JsonWebTokenError "invalid signature").
Proof.
  intros Hk'. unfold verify.
  rewrite jwsSign_truthy. cbn [negb].
  unfold jwsSign. rewrite jwsDecode_signed.
  rewrite (proj2 (String.eqb_neq _ _) (hmacSign_not_blank _ _ _)).
  rewrite (proj2 (String.eqb_neq _ _) Hk').
  reflexivity.
Qed.

Lemma verify_own_token (now_ms : Z) (p : Json) :
  verify now_ms
    (Some (JStr (jwsSign jwt_header p HS256 (JwtHandle.JWT_SECRET env))))
    (JwtHandle.JWT_SECRET env)
  = check_claims now_ms p.
Proof.
  rewrite verify_jwsSign by apply JWT_SECRET_not_empty.
  now rewrite String.eqb_refl.
Qed.

Lemma check_claims_access (now_ms t : Z) (id email : string) :
  check_claims now_ms (access_payload t id email)
  = if clock_seconds now_ms >=? clock_seconds t + 3600
    then Throw TokenExpiredError
    else Return (access_payload t id email).
Proof.
  unfold check_claims, access_payload. cbn [get assoc String.eqb Ascii.eqb Bool.eqb].
  cbn [bind]. destruct (clock_seconds now_ms >=? clock_seconds t + 3600); reflexivity.
Qed.

Lemma check_claims_refresh (now_ms t : Z) (id : string) :
  check_claims now_ms (refresh_payload t id)
  = if clock_seconds now_ms >=? clock_seconds t + 604800
    then Throw TokenExpiredError
    else Return (refresh_payload t id).
Proof.
  unfold check_claims, refresh_payload. cbn [get assoc String.eqb Ascii.eqb Bool.eqb].
  cbn [bind]. destruct (clock_seconds now_ms >=? clock_seconds t + 604800); reflexivity.
Qed.

End TokenFacts.

Section TokenProperties.
Context `{JwsPrimitives}.
Variable env : ProcessEnv.

Lemma decode_jwsSign (h : JoseHeader) (p : Json) (a : HmacAlg) (k : string) :
  decode (jwsSign h p a k) = Some p.
Proof. unfold decode, jwsSign. now rewrite jwsDecode_signed. Qed.

(** C1. An access token minted by [generateToken] for [id] and [email] is
    accepted by [verifyToken] under the same environment at any clock
    reading before its expiry, and the payload returned carries that
    [id] and that [email]. *)
Theorem verifyToken_generateToken (id email : string) (t_mint t_verify : Z) :
  clock_seconds t_verify < clock_seconds t_mint + 3600 ->
  exists tok payload,
    JwtHandle.generateToken env t_mint id email = Return tok /\
    JwtHandle.verifyToken env t_verify (Some (JStr tok)) = Return payload /\
    get payload "id" = Some (JStr id) /\
    get payload "email" = Some (JStr email).
Proof.
  intros Hfresh.
  exists (jwsSign jwt_header (access_payload t_mint id email) HS256
            (JwtHandle.JWT_SECRET env)),
         (access_payload t_mint id email).
  split; [apply generateToken_eq |].
  split; [| split; reflexivity].
  unfold JwtHandle.verifyToken.
  rewrite verify_own_token, check_claims_access.
  destruct (Z.geb_spec (clock_seconds t_verify) (clock_seconds t_mint + 3600));
    [lia | reflexivity].
Qed.

(** C2. The payload of an access token has [exp = iat + 3600] (one hour)
    and that of a refresh token [exp = iat + 604800] (seven days), where
    [iat] is the clock reading, in seconds, at minting.  Verification of
    either token succeeds while the clock is before [exp] and fails from
    [exp] on: [verifyToken] throws [TokenExpiredError], and
    [verifyRefreshToken] returns [null]. *)
Theorem token_lifetimes (id email : string) (t now : Z) :
  (exists tok payload,
     JwtHandle.generateToken env t id email = Return tok /\
     decode tok = Some payload /\
     get payload "iat" = Some (JNum (clock_seconds t)) /\
     get payload "exp" = Some (JNum (clock_seconds t + 60 * 60)) /\
     JwtHandle.verifyToken env now (Some (JStr tok))
     = (if clock_seconds now >=? clock_seconds t + 60 * 60
        then Throw TokenExpiredError else Return payload) /\
     JwtHandle.verifyRefreshToken env now (Some (JStr tok))
     = (if clock_seconds now >=? clock_seconds t + 60 * 60
        then Return JNull else Return payload))
  /\
  (exists tok payload,
     JwtHandle.generateRefreshToken env t id = Return tok /\
     decode tok = Some payload /\
     get payload "iat" = Some (JNum (clock_seconds t)) /\
     get payload "exp" = Some (JNum (clock_seconds t + 7 * 24 * 60 * 60)) /\
     JwtHandle.verifyToken env now (Some (JStr tok))
     = (if clock_seconds now >=? clock_seconds t + 7 * 24 * 60 * 60
        then Throw TokenExpiredError else Return payload) /\
     JwtHandle.verifyRefreshToken env now (Some (JStr tok))
     = (if clock_seconds now >=? clock_seconds t + 7 * 24 * 60 * 60
        then Return JNull else Return payload)).
Proof.
  split.
  - exists (jwsSign jwt_header (access_payload t id email) HS256
              (JwtHandle.JWT_SECRET env)),
           (access_payload t id email).
    split; [apply generateToken_eq |].
    split; [apply decode_jwsSign |].
    do 2 (split; [reflexivity |]).
    unfold JwtHandle.verifyToken, JwtHandle.verifyRefreshToken.
    rewrite verify_own_token, check_claims_access.
    change (60 * 60) with 3600.
    destruct (clock_seconds now >=? clock_seconds t + 3600); split; reflexivity.
  - exists (jwsSign jwt_header (refresh_payload t id) HS256
              (JwtHandle.JWT_SECRET env)),
           (refresh_payload t id).
    split; [apply generateRefreshToken_eq |].
    split; [apply decode_jwsSign |].
    do 2 (split; [reflexivity |]).
    unfold JwtHandle.verifyToken, JwtHandle.verifyRefreshToken.
    rewrite verify_own_token, check_claims_refresh.
    change (7 * 24 * 60 * 60) with 604800.
    destruct (clock_seconds now >=? clock_seconds t + 604800); split; reflexivity.
Qed.

(** A token whose payload carries a numeric [exp] is rejected by [verify]
    at every clock reading from [exp] on, whatever its header, key and
    other claims. *)
Lemma verify_after_exp (h : JoseHeader) (fields : list (string * Json))
      (a : HmacAlg) (k k' : string) (e now : Z) :
  assoc "exp" fields = Some (JNum e) ->
  e <= clock_seconds now ->
  exists err, verify now (Some (JStr (jwsSign h (JObj fields) a k))) k' = Throw err.
Proof.
  intros Hexp Hnow. unfold verify.
  rewrite jwsSign_truthy. cbn [negb].
  unfold jwsSign. rewrite jwsDecode_signed.
  repeat match goal with
         | |- exists err, (if ?b then _ else _) = Throw err =>
             destruct b; [eexists; reflexivity |]
         end.
  destruct (hmac_alg_of_string (alg h)); [| eexists; reflexivity].
  destruct (String.eqb _ _); [| eexists; reflexivity].
  unfold check_claims. cbn [get]. rewrite Hexp.
  destruct (assoc "nbf" fields) as [[| | nbf | | |] |]; cbn [bind];
    try (eexists; reflexivity);
    try (destruct (nbf >? clock_seconds now); cbn [bind]; [eexists; reflexivity |]);
    (destruct (Z.geb_spec (clock_seconds now) e); [eexists; reflexivity | lia]).
Qed.

(** [exp] is counted from [iat], the minting time cut to whole seconds:
    in milliseconds the token lapses at most [span] seconds, and more
    than [span - 1] seconds, after the clock reading [t] of its minting. *)
Lemma expiry_within_the_second (t span : Z) :
  t + (span - 1) * 1000 < (clock_seconds t + span) * 1000 <= t + span * 1000.
Proof.
  unfold clock_seconds.
  pose proof (Z.mul_div_le t 1000 ltac:(lia)).
  pose proof (Z.mul_succ_div_gt t 1000 ltac:(lia)).
  lia.
Qed.

(** C6. [verifyRefreshToken] returns on every input, string or not: it
    returns the decoded payload when [verify] accepts the token, and
    [null] when [verify] throws, whatever the error thrown. *)
Theorem verifyRefreshToken_total (now : Z) (refreshToken : JsValue) :
  exists v,
    JwtHandle.verifyRefreshToken env now refreshToken = Return v /\
    match verify now refreshToken (JwtHandle.JWT_SECRET env) with
    | Return payload => v = payload
    | Throw _ => v = JNull
    end.
Proof.
  unfold JwtHandle.verifyRefreshToken, try_catch.
  destruct (verify now refreshToken (JwtHandle.JWT_SECRET env)) as [payload | e];
    eexists; split; reflexivity.
Qed.

End TokenProperties.

(** ** The login controller *)

Section LoginProperties.
Import Express AuthController.
Variable loginUser : JsValue -> JsValue -> JsValue -> Result LoginResponse.

(** The two sentinel strings are different values. *)
Lemma sentinels_exclusive (r : LoginResponse) :
  is_string r "INCORRECT_PASSWORD" = true ->
  is_string r "NOT_FOUND_USER" = false.
Proof.
  destruct r as [s | u t rt]; simpl; [| discriminate].
  intros Hs. apply String.eqb_eq in Hs. subst s. reflexivity.
Qed.

(** What [loginCtrl] answers, by the outcome of [loginUser]. *)
Lemma loginCtrl_outcome (body : Json) (res : Response) (r : LoginResponse) :
  loginUser (get body "name") (get body "email") (get body "password") = Return r ->
  loginCtrl loginUser body res
  = Return
      (if is_string r "INCORRECT_PASSWORD" then
         json (message "Contraseña incorrecta") (status 403 res)
       else if is_string r "NOT_FOUND_USER" then
         json (message "Usuario no encontrado") (status 404 res)
       else
         json
           (JObj (object_literal
              [("user", session_user r);
               ("token", option_map JStr (session_token r));
               ("refreshToken", option_map JStr (session_refreshToken r))]))
           (cookie (session_cookie "refreshToken"
                      (cookie_text (session_refreshToken r)) 604800000)
              (cookie (session_cookie "token"
                         (cookie_text (session_token r)) 86400000) res))).
Proof.
  intros Hr. unfold loginCtrl. rewrite Hr. cbn [bind].
  destruct (is_string r "INCORRECT_PASSWORD"); [reflexivity |].
  destruct (is_string r "NOT_FOUND_USER"); reflexivity.
Qed.



End LoginProperties.

(** ** The Google OAuth controllers *)

Section GoogleProperties.
Import Express AuthController.

(** C9, as stated, fails when the variable is set to the empty string:
    the guard [!redirectUri] holds and the handler answers 500. *)
Lemma googleAuthCtrl_empty_url_is_500 :
  let env := mkEnv None (Some "") (Some "client-1") in
  env_GOOGLE_OAUTH_REDIRECT_URL env <> None /\
  googleAuthCtrl env fresh
  = Return (mkResponse 500 []
              (SentJson (JObj [("message", JStr "Error interno de configuración")]))) /\
  ~ redirects_whenever_set env.
Proof.
  cbv zeta. split; [discriminate |]. split; [reflexivity |].
  intros [_ Hset]. destruct Hset as [url Hurl]; [discriminate |].
  discriminate Hurl.
Qed.

(** C9, amended. When [GOOGLE_OAUTH_REDIRECT_URL] is unset or empty the
    handler answers 500 with body
    [{message: "Error interno de configuración"}] and does not redirect;
    otherwise it redirects (302) to Google's authorization endpoint with
    the configured [redirect_uri] and [client_id] followed by
    [access_type=offline], [response_type=code], [prompt=consent] and the
    profile, email and openid scope. *)
Theorem googleAuthCtrl_policy (env : ProcessEnv) :
  googleAuthCtrl env fresh
  = Return
      match env_GOOGLE_OAUTH_REDIRECT_URL env with
      | None | Some EmptyString =>
          mkResponse 500 []
            (SentJson (JObj [("message", JStr "Error interno de configuración")]))
      | Some uri =>
          mkResponse 302 []
            (SentRedirect
               (authorization_url uri (env_text (env_GOOGLE_CLIENT_ID env))))
      end.
Proof.
  unfold googleAuthCtrl.
  destruct (env_GOOGLE_OAUTH_REDIRECT_URL env) as [[| c uri] |]; reflexivity.
Qed.

Variable googleAuth : JsValue -> Result (option AuthResult).

(** C10. When the callback carries a code and [googleAuth] resolves to
    the session data, the handler sets the [token] and [refreshToken]
    cookies and then redirects (302) to [http://localhost:4200/] with
    the access token and the user's email in the query string. *)
Theorem googleAuthCallback_success (code : JsValue) (ad : AuthData) :
  truthy code = true ->
  googleAuth code = Return (Some (complete ad)) ->
  googleAuthCallback googleAuth code fresh
  = Return
      (mkResponse 302
         [mkCookie "token" (ad_token ad) true false "none" 86400000;
          mkCookie "refreshToken" (ad_refreshToken ad) true false "none" 604800000]
         (SentRedirect
            ("http://localhost:4200/" ++ "?token=" ++ ad_token ad
               ++ "&email=" ++ gu_email (ad_user ad)))).
Proof.
  intros Hcode Hauth. unfold googleAuthCallback.
  rewrite Hcode, Hauth. reflexivity.
Qed.

End GoogleProperties.

(** ** The refresh endpoint *)

Section RefreshProperties.
Import Express UserRoutes.
Context `{JwsPrimitives}.
Variable env : ProcessEnv.
Variable findById : JsValue -> Result (option User).


Lemma get_Some_not_null (body : Json) (k : string) (v : Json) :
  get body k = Some v -> body <> JNull.
Proof. intros Hget ->. discriminate Hget. Qed.

Lemma truthy_get_not_null (body : Json) (k : string) :
  truthy (get body k) = true -> body <> JNull.
Proof. intros Ht ->. discriminate Ht. Qed.

(** The body is destructured before the [try]: a [null] body throws. *)
Lemma refresh_null_body (now_verify now_mint : Z) (res : Response) :
  refresh env findById now_verify now_mint JNull res
  = Throw (mkError "TypeError" (destructure_error "req.body" "refreshToken")).
Proof. reflexivity. Qed.

(** The handler on a body that is not [null], by cases on what [verify]
    and [findById] do. *)
Lemma refresh_outcome (now_verify now_mint : Z) (body : Json) (res : Response) :
  body <> JNull ->
  refresh env findById now_verify now_mint body res
  = Return
      (if negb (truthy (get body "refreshToken")) then
         json (message "Refresh token es requerido") (status 400 res)
       else
         match verify now_verify (get body "refreshToken") (JwtHandle.JWT_SECRET env) with
         | Throw _ => json invalid_or_expired (status 401 res)
         | Return payload =>
             if has_key "id" payload then
               match findById (get payload "id") with
               | Throw _ => json (message "Error interno del servidor") (status 500 res)
               | Return None => json (message "Usuario no encontrado") (status 401 res)
               | Return (Some u) =>
                   json (JObj [("token",
                           JStr (jwsSign jwt_header
                                   (access_payload now_mint (user_id u) (user_email u))
                                   HS256 (JwtHandle.JWT_SECRET env)))]) res
               end
             else json invalid_or_expired (status 401 res)
         end).
Proof.
  intros Hbody. unfold refresh.
  assert (Hd : destructure "req.body" body "refreshToken"
               = Return (get body "refreshToken"))
    by (destruct body; [contradiction | reflexivity ..]).
  rewrite Hd. cbn [bind].
  destruct (negb (truthy (get body "refreshToken"))); [reflexivity |].
  unfold JwtHandle.verifyRefreshToken.
  destruct (verify now_verify (get body "refreshToken") (JwtHandle.JWT_SECRET env))
    as [payload | e]; [| reflexivity].
  cbn [try_catch bind].
  destruct payload as [| b | z | s | l | l]; try reflexivity.
  - destruct b; reflexivity.
  - cbn [truthy]. destruct (negb (z =? 0)); reflexivity.
  - cbn [truthy]. destruct (negb (String.eqb s "")); reflexivity.
  - cbn [truthy typeof_object negb orb].
    destruct (has_key "id" (JObj l)); cbn [negb]; [| reflexivity].
    destruct (findById (get (JObj l) "id")) as [[u |] | e]; try reflexivity.
    cbn [bind]. rewrite generateToken_eq. reflexivity.
Qed.



Lemma verified_truthy (now : Z) (tok : JsValue) (payload : Json) :
  verify now tok (JwtHandle.JWT_SECRET env) = Return payload -> truthy tok = true.
Proof.
  unfold verify. destruct (truthy tok); [reflexivity | discriminate].
Qed.

(** [!refreshToken] also holds for [null], [false], [0] and the empty
    string: all of them get 400. *)
Lemma refresh_falsy_token_is_400 (now_verify now_mint : Z) (body : Json) :
  body <> JNull ->
  truthy (get body "refreshToken") = false ->
  refresh env findById now_verify now_mint body fresh
  = answer 400 "Refresh token es requerido".
Proof.
  intros Hbody Hfalsy. rewrite refresh_outcome, Hfalsy by exact Hbody. reflexivity.
Qed.


(** C5. An access token minted by [generateToken], sent as the
    [refreshToken] before its one-hour expiry, is accepted by the refresh
    endpoint when [findById] finds the user of its [id]: both kinds of
    token are signed with the same secret and the handler only looks for
    an [id] in the verified payload. *)
Theorem refresh_accepts_access_token (id email tok : string)
        (t now_verify now_mint : Z) (body : Json) (u : User) :
  JwtHandle.generateToken env t id email = Return tok ->
  clock_seconds now_verify < clock_seconds t + 3600 ->
  get body "refreshToken" = Some (JStr tok) ->
  findById (Some (JStr id)) = Return (Some u) ->
  exists newToken,
    JwtHandle.generateToken env now_mint (user_id u) (user_email u) = Return newToken /\
    refresh env findById now_verify now_mint body fresh
    = Return (mkResponse 200 [] (SentJson (JObj [("token", JStr newToken)]))).
Proof.
  intros Hmint Hfresh Hbody Huser.
  rewrite generateToken_eq in Hmint. injection Hmint as <-.
  eexists. split; [apply generateToken_eq |].
  rewrite refresh_outcome by exact (get_Some_not_null _ _ _ Hbody).
  rewrite Hbody, jwsSign_truthy.
  rewrite verify_own_token, check_claims_access.
  destruct (Z.geb_spec (clock_seconds now_verify) (clock_seconds t + 3600)); [lia |].
  cbn [negb has_key access_payload assoc String.eqb Ascii.eqb Bool.eqb get].
  rewrite Huser. reflexivity.
Qed.

End RefreshProperties.

(** ** Internal failures *)

Section InternalFailures.
Import Express AuthController UserRoutes.
Context `{JwsPrimitives}.


End InternalFailures.

(* ===================================================================== *)
(** * Runs on concrete requests, with the reference primitives *)
(* ===================================================================== *)

Section ConcreteRuns.
Import Express AuthController UserRoutes ReferenceCodecFacts.

Example JWT_SECRET_values :
  JwtHandle.JWT_SECRET env_unset = "token.010101010101" /\
  JwtHandle.JWT_SECRET (mkEnv (Some "") None None) = "token.010101010101" /\
  JwtHandle.JWT_SECRET env_secret = "s3cret".
Proof. repeat split. Qed.

Example timespans :
  Ms.ms "1h" = Some (60 * 60 * 1000) /\ Ms.ms "7d" = Some (7 * 24 * 60 * 60 * 1000) /\
  Ms.ms "soon" = None.
Proof. repeat split. Qed.

Example access_token_1_payload :
  decode access_token_1
  = Some (JObj [("id", JStr "u1"); ("email", JStr "a@x.com");
                ("iat", JNum 1700000000); ("exp", JNum 1700003600)]).
Proof. vm_compute. reflexivity. Qed.

(** The last millisecond at which [access_token_1] verifies, and the
    first at which it does not. *)
Example access_token_1_boundary :
  JwtHandle.verifyToken env_unset 1700003599999 (Some (JStr access_token_1))
  = Return (access_payload t0 "u1" "a@x.com") /\
  JwtHandle.verifyToken env_unset 1700003600000 (Some (JStr access_token_1))
  = Throw TokenExpiredError.
Proof. split; vm_compute; reflexivity. Qed.

(** [verifyToken] tells a malformed token from an expired one and from
    one signed under another secret; [verifyRefreshToken] answers [null]
    to all three. *)
Example three_failures :
  let late := t0 + 8 * 86400000 in
  JwtHandle.verifyToken env_unset late (Some (JStr "not-a-token"))
  = Throw (JsonWebTokenError "jwt malformed") /\
  JwtHandle.verifyToken env_unset late (Some (JStr refresh_token_1))
  = Throw TokenExpiredError /\
  JwtHandle.verifyToken env_secret t0 (Some (JStr refresh_token_1))
  = Throw (JsonWebTokenError "invalid signature") /\
  JwtHandle.verifyRefreshToken env_unset late (Some (JStr "not-a-token"))
  = Return JNull /\
  JwtHandle.verifyRefreshToken env_unset late (Some (JStr refresh_token_1))
  = Return JNull /\
  JwtHandle.verifyRefreshToken env_secret t0 (Some (JStr refresh_token_1))
  = Return JNull /\
  JwtHandle.verifyRefreshToken env_unset t0 (Some (JNum 7)) = Return JNull.
Proof. cbv zeta. repeat split; vm_compute; reflexivity. Qed.

Example google_redirect :
  googleAuthCtrl
    (mkEnv None (Some "http://localhost:9000/api/auth/google/callback")
       (Some "client-1"))
    fresh
  = Return (mkResponse 302 []
      (SentRedirect
         "https://accounts.google.com/o/oauth2/v2/auth?redirect_uri=http%3A%2F%2Flocalhost%3A9000%2Fapi%2Fauth%2Fgoogle%2Fcallback&client_id=client-1&access_type=offline&response_type=code&prompt=consent&scope=https%3A%2F%2Fwww.googleapis.com%2Fauth%2Fuserinfo.profile+https%3A%2F%2Fwww.googleapis.com%2Fauth%2Fuserinfo.email+openid")).
Proof. vm_compute. reflexivity. Qed.

Lemma verifyToken_generateToken_witness :
  clock_seconds (t0 + 3599000) < clock_seconds t0 + 3600 /\
  exists tok payload,
    JwtHandle.generateToken env_secret t0 "u1" "a@x.com" = Return tok /\
    JwtHandle.verifyToken env_secret (t0 + 3599000) (Some (JStr tok)) = Return payload /\
    get payload "id" = Some (JStr "u1") /\
    get payload "email" = Some (JStr "a@x.com").
Proof.
  split; [reflexivity |].
  apply (verifyToken_generateToken env_secret "u1" "a@x.com" t0 (t0 + 3599000)).
  reflexivity.
Defined.




Lemma googleAuthCallback_success_witness :
  truthy (Some (JStr "4/0AbCd")) = true /\
  sample_googleAuth (Some (JStr "4/0AbCd")) = Return (Some (complete sample_auth_data)) /\
  googleAuthCallback sample_googleAuth (Some (JStr "4/0AbCd")) fresh
  = Return
      (mkResponse 302
         [mkCookie "token" "access-1" true false "none" 86400000;
          mkCookie "refreshToken" "refresh-1" true false "none" 604800000]
         (SentRedirect "http://localhost:4200/?token=access-1&email=a@x.com")).
Proof.
  split; [reflexivity |]. split; [reflexivity |].
  apply (googleAuthCallback_success sample_googleAuth (Some (JStr "4/0AbCd"))
           sample_auth_data); reflexivity.
Defined.

Lemma refresh_accepts_access_token_witness :
  JwtHandle.generateToken env_unset t0 "u1" "a@x.com" = Return access_token_1 /\
  clock_seconds (t0 + 1000) < clock_seconds t0 + 3600 /\
  get (refresh_body access_token_1) "refreshToken" = Some (JStr access_token_1) /\
  sample_findById (Some (JStr "u1")) = Return (Some (mkUser "u1" "a@x.com")) /\
  exists newToken,
    JwtHandle.generateToken env_unset (t0 + 1001) "u1" "a@x.com" = Return newToken /\
    refresh env_unset sample_findById (t0 + 1000) (t0 + 1001)
      (refresh_body access_token_1) fresh
    = Return (mkResponse 200 [] (SentJson (JObj [("token", JStr newToken)]))).
Proof.
  split; [vm_compute; reflexivity |]. split; [reflexivity |].
  split; [reflexivity |]. split; [reflexivity |].
  apply (refresh_accepts_access_token env_unset sample_findById "u1" "a@x.com"
           access_token_1 t0 (t0 + 1000) (t0 + 1001) (refresh_body access_token_1)
           (mkUser "u1" "a@x.com"));
    solve [reflexivity | vm_compute; reflexivity].
Defined.



End ConcreteRuns.

(* ===================================================================== *)
(** * Further properties of the token functions *)
(* ===================================================================== *)

Section TokenExtras.
Context `{JwsPrimitives}.

Lemma check_claims_Return (now : Z) (p q : Json) :
  check_claims now p = Return q -> q = p /\ p <> JNull.
Proof.
  unfold check_claims.
  destruct p as [| b | z | s | l | l]; cbn [get bind].
  1: discriminate.
  1-4: intros E; injection E as <-; split; [reflexivity | discriminate].
  destruct (assoc "nbf" l) as [[| ? | nbf | ? | ? | ?] |]; cbn [bind];
    try discriminate;
    try (destruct (nbf >? clock_seconds now); cbn [bind]; try discriminate);
    (destruct (assoc "exp" l) as [[| ? | e | ? | ? | ?] |]; cbn [bind];
     try discriminate;
     try (destruct (clock_seconds now >=? e); cbn [bind]; try discriminate);
     intros E; injection E as <-; (split; [reflexivity | discriminate])).
Qed.

Lemma verify_Return (now : Z) (tok : JsValue) (k : string) (q : Json) :
  verify now tok k = Return q -> q <> JNull.
Proof.
  unfold verify.
  destruct (negb (truthy tok)); [discriminate |].
  destruct tok as [[| ? | ? | s | ? | ?] |]; try discriminate.
  destruct (jwsDecode s) as [| | h p sig input]; try discriminate.
  repeat match goal with
         | |- (if ?b then _ else _) = _ -> _ => destruct b; [discriminate |]
         end.
  destruct (hmac_alg_of_string (alg h)); [| discriminate].
  destruct (String.eqb _ _); [| discriminate].
  intros Hc. apply check_claims_Return in Hc. destruct Hc as [-> Hp]. exact Hp.
Qed.

(** X1. Minting never throws: whatever the environment (secret set,
    unset or empty), clock reading, id and email, [generateToken] and
    [generateRefreshToken] return a string, and the string is not
    empty. *)
Theorem minting_never_throws (env : ProcessEnv) (t : Z) (id email : string) :
  exists tok rtok,
    JwtHandle.generateToken env t id email = Return tok /\
    JwtHandle.generateRefreshToken env t id = Return rtok /\
    tok <> "" /\ rtok <> "" /\
    truthy (Some (JStr tok)) = true /\ truthy (Some (JStr rtok)) = true.
Proof.
  rewrite generateToken_eq, generateRefreshToken_eq.
  do 2 eexists. do 2 (split; [reflexivity |]).
  split; [apply jwsSign_not_empty |]. split; [apply jwsSign_not_empty |].
  split; apply jwsSign_truthy.
Qed.

(** X2. A [JWT_SECRET] set to the empty string counts as unset: the
    hard-coded fallback signs and verifies, so tokens minted under one of
    the two environments are the tokens minted, and the tokens accepted,
    under the other. *)
Theorem empty_secret_is_fallback (env1 env2 : ProcessEnv) (t now : Z)
        (id email : string) (tok : JsValue) :
  env_JWT_SECRET env1 = Some "" ->
  env_JWT_SECRET env2 = None ->
  JwtHandle.JWT_SECRET env1 = "token.010101010101" /\
  JwtHandle.generateToken env1 t id email = JwtHandle.generateToken env2 t id email /\
  JwtHandle.generateRefreshToken env1 t id = JwtHandle.generateRefreshToken env2 t id /\
  JwtHandle.verifyToken env1 now tok = JwtHandle.verifyToken env2 now tok /\
  JwtHandle.verifyRefreshToken env1 now tok = JwtHandle.verifyRefreshToken env2 now tok.
Proof.
  intros H1 H2.
  assert (Hs1 : JwtHandle.JWT_SECRET env1 = "token.010101010101")
    by (unfold JwtHandle.JWT_SECRET; rewrite H1; reflexivity).
  assert (Hs2 : JwtHandle.JWT_SECRET env2 = "token.010101010101")
    by (unfold JwtHandle.JWT_SECRET; rewrite H2; reflexivity).
  unfold JwtHandle.generateToken, JwtHandle.generateRefreshToken,
    JwtHandle.verifyToken, JwtHandle.verifyRefreshToken.
  rewrite Hs1, Hs2. repeat split.
Qed.

(** X3. Two access tokens for the same id and email are the same string
    exactly when they were minted within the same clock second; the same
    holds of refresh tokens. *)
Theorem same_second_same_token (env : ProcessEnv) (t t' : Z) (id email : string) :
  (JwtHandle.generateToken env t id email = JwtHandle.generateToken env t' id email
   <-> clock_seconds t = clock_seconds t')
  /\
  (JwtHandle.generateRefreshToken env t id = JwtHandle.generateRefreshToken env t' id
   <-> clock_seconds t = clock_seconds t').
Proof.
  rewrite !generateToken_eq, !generateRefreshToken_eq.
  split; split.
  - intros E. injection E as E. apply (f_equal decode) in E.
    rewrite !decode_jwsSign in E. injection E as E _. exact E.
  - intros E. unfold access_payload. rewrite E. reflexivity.
  - intros E. injection E as E. apply (f_equal decode) in E.
    rewrite !decode_jwsSign in E. injection E as E _. exact E.
  - intros E. unfold refresh_payload. rewrite E. reflexivity.
Qed.

(** X4. [verifyRefreshToken] answers [null] exactly when [verifyToken]
    throws on the same input: [null] is never the payload of a token
    that verifies. *)
Theorem null_iff_verify_throws (env : ProcessEnv) (now : Z) (tok : JsValue) :
  JwtHandle.verifyRefreshToken env now tok = Return JNull
  <-> exists e, JwtHandle.verifyToken env now tok = Throw e.
Proof.
  unfold JwtHandle.verifyRefreshToken, JwtHandle.verifyToken, try_catch.
  destruct (verify now tok (JwtHandle.JWT_SECRET env)) as [q | e] eqn:Hv.
  - split.
    + intros E. injection E as ->. exfalso. exact (verify_Return _ _ _ _ Hv eq_refl).
    + intros [e He]. discriminate He.
  - split; [intros _; exists e; reflexivity | reflexivity].
Qed.

(** X5. Changing the secret invalidates the tokens in circulation: an
    access token minted under one environment, checked under another
    whose secret gives a different MAC on it, is refused with
    [invalid signature] whether or not it has expired, and
    [verifyRefreshToken] answers [null]. *)
Theorem other_secret_is_refused (env1 env2 : ProcessEnv) (t now : Z)
        (id email tok : string) :
  JwtHandle.generateToken env1 t id email = Return tok ->
  hmacSign HS256 (JwtHandle.JWT_SECRET env1)
    (securedInput_of jwt_header (access_payload t id email))
  <> hmacSign HS256 (JwtHandle.JWT_SECRET env2)
       (securedInput_of jwt_header (access_payload t id email)) ->
  JwtHandle.verifyToken env2 now (Some (JStr tok))
  = Throw (JsonWebTokenError "invalid signature") /\
  JwtHandle.verifyRefreshToken env2 now (Some (JStr tok)) = Return JNull.
Proof.
  intros Hmint Htag. rewrite generateToken_eq in Hmint. injection Hmint as <-.
  unfold JwtHandle.verifyToken, JwtHandle.verifyRefreshToken.
  rewrite verify_jwsSign by apply JWT_SECRET_not_empty.
  rewrite (proj2 (String.eqb_neq _ _) Htag). split; reflexivity.
Qed.

End TokenExtras.

(* ===================================================================== *)
(** * Further properties of the refresh endpoint *)
(* ===================================================================== *)

Section RefreshExtras.
Import Express UserRoutes.
Context `{JwsPrimitives}.
Variable env : ProcessEnv.
Variable findById : JsValue -> Result (option User).

(** X6. The intended path: a refresh token minted by
    [generateRefreshToken] for [id], presented before its seven days are
    over while [findById] finds the user, gets 200 and an access token
    minted for the stored user's id and email.  Nothing is consumed: the
    same holds at every such presentation. *)
Theorem refresh_with_refresh_token (id rtok : string) (t now_verify now_mint : Z)
        (body : Json) (u : User) :
  JwtHandle.generateRefreshToken env t id = Return rtok ->
  clock_seconds now_verify < clock_seconds t + 7 * 24 * 60 * 60 ->
  get body "refreshToken" = Some (JStr rtok) ->
  findById (Some (JStr id)) = Return (Some u) ->
  exists newToken,
    JwtHandle.generateToken env now_mint (user_id u) (user_email u) = Return newToken /\
    refresh env findById now_verify now_mint body fresh
    = Return (mkResponse 200 [] (SentJson (JObj [("token", JStr newToken)]))).
Proof.
  intros Hmint Hfresh Hbody Huser.
  rewrite generateRefreshToken_eq in Hmint. injection Hmint as <-.
  eexists. split; [apply generateToken_eq |].
  rewrite refresh_outcome by exact (get_Some_not_null _ _ _ Hbody).
  rewrite Hbody, jwsSign_truthy.
  rewrite verify_own_token, check_claims_refresh.
  destruct (Z.geb_spec (clock_seconds now_verify) (clock_seconds t + 604800)); [lia |].
  cbn [negb has_key refresh_payload assoc String.eqb Ascii.eqb Bool.eqb get].
  rewrite Huser. reflexivity.
Qed.

(** X7. The access token a successful refresh hands out is accepted by
    [verifyToken] during the hour after its minting, and its payload
    carries the id and the email of the stored user, not data of the
    token presented. *)
Theorem refreshed_token_verifies (now_verify now_mint later : Z)
        (body payload : Json) (u : User) :
  JwtHandle.verifyToken env now_verify (get body "refreshToken") = Return payload ->
  has_key "id" payload = true ->
  findById (get payload "id") = Return (Some u) ->
  clock_seconds later < clock_seconds now_mint + 3600 ->
  exists newToken payload',
    refresh env findById now_verify now_mint body fresh
    = Return (mkResponse 200 [] (SentJson (JObj [("token", JStr newToken)]))) /\
    JwtHandle.verifyToken env later (Some (JStr newToken)) = Return payload' /\
    get payload' "id" = Some (JStr (user_id u)) /\
    get payload' "email" = Some (JStr (user_email u)).
Proof.
  unfold JwtHandle.verifyToken. intros Hv Hid Huser Hlater.
  rewrite refresh_outcome
    by exact (truthy_get_not_null _ _ (verified_truthy _ _ _ _ Hv)).
  rewrite (verified_truthy _ _ _ _ Hv), Hv, Hid, Huser.
  do 2 eexists. split; [reflexivity |].
  rewrite verify_own_token, check_claims_access.
  destruct (Z.geb_spec (clock_seconds later) (clock_seconds now_mint + 3600)); [lia |].
  repeat split.
Qed.

(** X20. An access token stands in for a refresh token for its own hour
    only: presented from its expiry on it gets 401, whoever the user. *)
Theorem refresh_rejects_expired_access_token (id email tok : string)
        (t now_verify now_mint : Z) (body : Json) :
  JwtHandle.generateToken env t id email = Return tok ->
  clock_seconds t + 3600 <= clock_seconds now_verify ->
  get body "refreshToken" = Some (JStr tok) ->
  refresh env findById now_verify now_mint body fresh
  = answer 401 "Refresh token inválido o expirado".
Proof.
  intros Hmint Hlate Hbody.
  rewrite generateToken_eq in Hmint. injection Hmint as <-.
  rewrite refresh_outcome by exact (get_Some_not_null _ _ _ Hbody).
  rewrite Hbody, jwsSign_truthy.
  rewrite verify_own_token, check_claims_access.
  destruct (Z.geb_spec (clock_seconds now_verify) (clock_seconds t + 3600)); [| lia].
  reflexivity.
Qed.

(** X8. A [refreshToken] that is truthy but not a string (a number, [true],
    an array, an object) gets 401, like an invalid token, not 400. *)
Theorem refresh_non_string_token (now_verify now_mint : Z) (body v : Json) :
  get body "refreshToken" = Some v ->
  truthy (Some v) = true ->
  (forall s, v <> JStr s) ->
  refresh env findById now_verify now_mint body fresh
  = answer 401 "Refresh token inválido o expirado".
Proof.
  intros Hbody Htruthy Hnot.
  rewrite refresh_outcome by exact (get_Some_not_null _ _ _ Hbody).
  rewrite Hbody, Htruthy.
  unfold verify. rewrite Htruthy. cbn [negb].
  destruct v as [| b | z | s | l | l]; try reflexivity.
  exfalso. exact (Hnot s eq_refl).
Qed.

(** X9. A token that verifies under the server's secret but whose
    payload has no [id] gets 401 with the invalid-or-expired message, and
    [findById] is not consulted: the answer is the same for every
    store. *)
Theorem refresh_payload_without_id (now_verify now_mint : Z) (body payload : Json)
        (other_findById : JsValue -> Result (option User)) :
  JwtHandle.verifyToken env now_verify (get body "refreshToken") = Return payload ->
  has_key "id" payload = false ->
  refresh env findById now_verify now_mint body fresh
  = answer 401 "Refresh token inválido o expirado" /\
  refresh env other_findById now_verify now_mint body fresh
  = answer 401 "Refresh token inválido o expirado".
Proof.
  unfold JwtHandle.verifyToken. intros Hv Hid.
  rewrite !refresh_outcome
    by exact (truthy_get_not_null _ _ (verified_truthy _ _ _ _ Hv)).
  rewrite (verified_truthy _ _ _ _ Hv), Hv, Hid.
  split; reflexivity.
Qed.



(** X11. No token without authentication: when the refresh handler
    answers 200, the [refreshToken] of the request verified under the
    server's secret at that clock reading, its payload had an [id],
    [findById] found a user for that [id], and the body is the access
    token minted for that user. *)
Theorem refresh_200_only_if_verified (now_verify now_mint : Z) (body : Json)
        (resp : Response) :
  refresh env findById now_verify now_mint body fresh = Return resp ->
  statusCode resp = 200 ->
  exists payload u newToken,
    JwtHandle.verifyToken env now_verify (get body "refreshToken") = Return payload /\
    has_key "id" payload = true /\
    findById (get payload "id") = Return (Some u) /\
    JwtHandle.generateToken env now_mint (user_id u) (user_email u) = Return newToken /\
    resp = mkResponse 200 [] (SentJson (JObj [("token", JStr newToken)])).
Proof.
  intros Hrun.
  assert (Hbody : body <> JNull)
    by (intros ->; rewrite refresh_null_body in Hrun; discriminate Hrun).
  revert Hrun. rewrite refresh_outcome by exact Hbody.
  unfold JwtHandle.verifyToken.
  destruct (negb (truthy (get body "refreshToken")));
    [intros E; injection E as <-; discriminate |].
  destruct (verify now_verify (get body "refreshToken") (JwtHandle.JWT_SECRET env))
    as [payload | e]; [| intros E; injection E as <-; discriminate].
  destruct (has_key "id" payload) eqn:Hid;
    [| intros E; injection E as <-; discriminate].
  destruct (findById (get payload "id")) as [[u |] | e] eqn:Huser;
    intros E; injection E as <-; try discriminate.
  intros _. exists payload, u. eexists.
  split; [reflexivity |]. split; [exact Hid |]. split; [exact Huser |].
  split; [apply generateToken_eq | reflexivity].
Qed.

End RefreshExtras.

(* ===================================================================== *)
(** * Further properties of the controllers *)
(* ===================================================================== *)

Section ControllerExtras.
Import Express AuthController.

(** X12. [registerCtrl] has two answers only: 200 with the value
    [registerNewUser] resolved to, sent as it is, or 500 when it threw.
    It sets no cookie and answers no other status. *)
Theorem registerCtrl_answers (registerNewUser : Json -> Result Json) (body : Json) :
  exists resp,
    registerCtrl registerNewUser body fresh = Return resp /\
    cookies resp = [] /\
    ((exists v, registerNewUser body = Return v /\
                resp = mkResponse 200 [] (SentJson v)) \/
     (exists e, registerNewUser body = Throw e /\
                resp = mkResponse 500 []
                         (SentJson (JObj [("message", JStr (err_message e))])))).
Proof.
  unfold registerCtrl.
  destruct (registerNewUser body) as [v | e]; eexists;
    (split; [reflexivity |]); (split; [reflexivity |]);
    [left | right]; eexists; split; reflexivity.
Qed.

(** X13. [loginCtrl] always answers, with status 200, 403, 404 or 500;
    the answers 403, 404 and 500 set no cookie, and the answer 200 sets
    exactly two. *)
Theorem loginCtrl_cookies_only_on_success
        (loginUser : JsValue -> JsValue -> JsValue -> Result LoginResponse)
        (body : Json) :
  exists resp,
    loginCtrl loginUser body fresh = Return resp /\
    ((statusCode resp = 200 /\ List.length (cookies resp) = 2%nat) \/
     (In (statusCode resp) [403; 404; 500] /\ cookies resp = [])).
Proof.
  destruct (loginUser (get body "name") (get body "email") (get body "password"))
    as [r | e] eqn:Hr.
  - rewrite (loginCtrl_outcome loginUser body fresh r Hr).
    eexists; split; [reflexivity |].
    destruct (is_string r "INCORRECT_PASSWORD"); [right; simpl; auto |].
    destruct (is_string r "NOT_FOUND_USER"); [right; simpl; auto |].
    left. split; reflexivity.
  - unfold loginCtrl. rewrite Hr. eexists; split; [reflexivity |].
    right. simpl; auto.
Qed.

(** X14. Every cookie [loginCtrl] or [googleAuthCallback] sets is
    [httpOnly], not [secure], with [sameSite] [none], and is either
    [token] with max-age one day or [refreshToken] with max-age seven
    days. *)
Theorem session_cookies_attributes
        (loginUser : JsValue -> JsValue -> JsValue -> Result LoginResponse)
        (googleAuth : JsValue -> Result (option AuthResult))
        (body : Json) (code : JsValue) :
  (exists resp,
     loginCtrl loginUser body fresh = Return resp /\
     Forall session_attributes (cookies resp))
  /\
  (exists resp,
     googleAuthCallback googleAuth code fresh = Return resp /\
     Forall session_attributes (cookies resp)).
Proof.
  assert (Htok : forall v, session_attributes (session_cookie "token" v 86400000))
    by (intros v; repeat split; left; split; reflexivity).
  assert (Href : forall v,
             session_attributes (session_cookie "refreshToken" v 604800000))
    by (intros v; repeat split; right; split; reflexivity).
  split.
  - destruct (loginUser (get body "name") (get body "email") (get body "password"))
      as [r | e] eqn:Hr.
    + rewrite (loginCtrl_outcome loginUser body fresh r Hr).
      eexists; split; [reflexivity |].
      destruct (is_string r "INCORRECT_PASSWORD"); [constructor |].
      destruct (is_string r "NOT_FOUND_USER"); [constructor |].
      apply Forall_cons; [apply Htok |].
      apply Forall_cons; [apply Href | apply Forall_nil].
    + unfold loginCtrl. rewrite Hr. eexists; split; [reflexivity | constructor].
  - unfold googleAuthCallback.
    destruct (negb (truthy code)); [eexists; split; [reflexivity | constructor] |].
    destruct (googleAuth code) as [[authData |] | e];
      [destruct (ar_user authData) as [email |] | |];
      (eexists; split; [reflexivity |]);
      try apply Forall_nil;
      (apply Forall_cons; [apply Htok |];
       apply Forall_cons; [apply Href | apply Forall_nil]).
Qed.

Lemma hex_digit_unreserved (n : nat) :
  UrlSearchParams.unreserved (UrlSearchParams.hex_digit n) = true.
Proof.
  do 16 (destruct n as [| n]; [reflexivity |]). reflexivity.
Qed.

Lemma count_char_append (c : ascii) (a b : string) :
  count_char c (a ++ b) = (count_char c a + count_char c b)%nat.
Proof.
  induction a as [| x a IH]; simpl; [reflexivity | rewrite IH; lia].
Qed.

(** The serializer lets no character through that is reserved, apart
    from the [+] and [%] it writes itself. *)
Lemma encode_no_reserved (c : ascii) (s : string) :
  UrlSearchParams.unreserved c = false -> c <> "+"%char -> c <> "%"%char ->
  count_char c (UrlSearchParams.encode s) = 0%nat.
Proof.
  intros Hres Hplus Hpct.
  assert (Hne : forall x, UrlSearchParams.unreserved x = true -> Ascii.eqb x c = false).
  { intros x Hx. apply Ascii.eqb_neq. intros ->. congruence. }
  induction s as [| x s IH]; [reflexivity |].
  cbn [UrlSearchParams.encode].
  destruct (UrlSearchParams.unreserved x) eqn:Hx.
  - cbn [count_char]. rewrite (Hne x Hx), IH. reflexivity.
  - destruct (nat_of_ascii x =? 32)%nat.
    + cbn [count_char]. rewrite (proj2 (Ascii.eqb_neq _ _)), IH; [reflexivity |].
      intros E; apply Hplus; symmetry; exact E.
    + cbn [count_char].
      rewrite (proj2 (Ascii.eqb_neq "%"%char c)) by (intros E; apply Hpct; symmetry; exact E).
      rewrite !(Hne _ (hex_digit_unreserved _)), IH. reflexivity.
Qed.

Lemma googleAuthCtrl_redirects (env : ProcessEnv) (uri : string) :
  env_GOOGLE_OAUTH_REDIRECT_URL env = Some uri ->
  uri <> "" ->
  googleAuthCtrl env fresh
  = Return (mkResponse 302 []
              (SentRedirect
                 (authorization_url uri (env_text (env_GOOGLE_CLIENT_ID env))))).
Proof.
  intros Henv Huri. unfold googleAuthCtrl. rewrite Henv.
  destruct uri as [| c uri]; [contradiction | reflexivity].
Qed.

(** X15. Whatever the configured redirect URL and client id contain,
    [&], [=], [?] and [#] included, the authorization URL
    [googleAuthCtrl] redirects to has one [?], six [name=value] pairs
    separated by five [&], and no [#]: configured values cannot add or
    cut parameters. *)
Theorem authorization_url_has_six_parameters (env : ProcessEnv) (uri : string) :
  env_GOOGLE_OAUTH_REDIRECT_URL env = Some uri ->
  uri <> "" ->
  exists url,
    googleAuthCtrl env fresh = Return (mkResponse 302 [] (SentRedirect url)) /\
    count_char "?" url = 1%nat /\
    count_char "&" url = 5%nat /\
    count_char "=" url = 6%nat /\
    count_char "#" url = 0%nat.
Proof.
  intros Henv Huri. eexists. split; [apply (googleAuthCtrl_redirects env uri Henv Huri) |].
  unfold authorization_url.
  repeat split; rewrite !count_char_append;
    rewrite !encode_no_reserved by (reflexivity || discriminate); reflexivity.
Qed.

(** X19. Only the redirect URL is checked: with [GOOGLE_CLIENT_ID] unset
    the handler still redirects to Google, with the text [undefined] as
    the client id. *)
Theorem googleAuthCtrl_without_client_id (env : ProcessEnv) (uri : string) :
  env_GOOGLE_OAUTH_REDIRECT_URL env = Some uri ->
  uri <> "" ->
  env_GOOGLE_CLIENT_ID env = None ->
  googleAuthCtrl env fresh
  = Return (mkResponse 302 []
              (SentRedirect
                 ("https://accounts.google.com/o/oauth2/v2/auth?redirect_uri="
                    ++ UrlSearchParams.encode uri
                    ++ "&client_id=undefined" ++ fixed_parameters))).
Proof.
  intros Henv Huri Hcid.
  rewrite (googleAuthCtrl_redirects env uri Henv Huri), Hcid. reflexivity.
Qed.

Variable googleAuth : JsValue -> Result (option AuthResult).

(** X16. A callback without a code (absent, or empty) gets 400 with a
    JSON message and no cookie, and the answer does not depend on
    [googleAuth]. *)
Theorem googleAuthCallback_without_code (code : JsValue)
        (other_googleAuth : JsValue -> Result (option AuthResult)) :
  truthy code = false ->
  googleAuthCallback googleAuth code fresh
  = answer 400 "Código de autorización faltante" /\
  googleAuthCallback other_googleAuth code fresh
  = answer 400 "Código de autorización faltante".
Proof.
  intros Hcode. unfold googleAuthCallback. rewrite Hcode. split; reflexivity.
Qed.

(** X17. When [googleAuth] resolves to nothing or throws, the callback
    redirects (302) to the login page with an error code in the query,
    [authentication_failed] or [server_error], sets no cookie, and shows
    nothing of the exception. *)
Theorem googleAuthCallback_failures (code : JsValue) :
  truthy code = true ->
  (googleAuth code = Return None ->
   googleAuthCallback googleAuth code fresh
   = Return (mkResponse 302 [] (SentRedirect "/login?error=authentication_failed")))
  /\
  (forall e, googleAuth code = Throw e ->
   googleAuthCallback googleAuth code fresh
   = Return (mkResponse 302 [] (SentRedirect "/login?error=server_error"))).
Proof.
  intros Hcode. unfold googleAuthCallback. rewrite Hcode.
  split; [intros -> | intros e ->]; reflexivity.
Qed.


End ControllerExtras.

(* ===================================================================== *)
(** * Further runs on concrete requests *)
(* ===================================================================== *)

Section FurtherRuns.
Import Express AuthController UserRoutes ReferenceCodecFacts.

Lemma empty_secret_is_fallback_witness :
  env_JWT_SECRET env_empty_secret = Some "" /\
  env_JWT_SECRET env_unset = None /\
  JwtHandle.JWT_SECRET env_empty_secret = "token.010101010101" /\
  JwtHandle.generateToken env_empty_secret t0 "u1" "a@x.com"
  = JwtHandle.generateToken env_unset t0 "u1" "a@x.com" /\
  JwtHandle.generateRefreshToken env_empty_secret t0 "u1"
  = JwtHandle.generateRefreshToken env_unset t0 "u1" /\
  JwtHandle.verifyToken env_empty_secret (t0 + 1000) (Some (JStr access_token_1))
  = JwtHandle.verifyToken env_unset (t0 + 1000) (Some (JStr access_token_1)) /\
  JwtHandle.verifyRefreshToken env_empty_secret (t0 + 1000) (Some (JStr access_token_1))
  = JwtHandle.verifyRefreshToken env_unset (t0 + 1000) (Some (JStr access_token_1)).
Proof.
  split; [reflexivity |]. split; [reflexivity |].
  apply (empty_secret_is_fallback env_empty_secret env_unset t0 (t0 + 1000)
           "u1" "a@x.com" (Some (JStr access_token_1))); reflexivity.
Defined.

Lemma other_secret_is_refused_witness :
  JwtHandle.generateToken env_unset t0 "u1" "a@x.com" = Return access_token_1 /\
  JwtHandle.verifyToken env_secret (t0 + 1000) (Some (JStr access_token_1))
  = Throw (JsonWebTokenError "invalid signature") /\
  JwtHandle.verifyRefreshToken env_secret (t0 + 1000) (Some (JStr access_token_1))
  = Return JNull.
Proof.
  split; [vm_compute; reflexivity |].
  apply (other_secret_is_refused env_unset env_secret t0 (t0 + 1000)
           "u1" "a@x.com" access_token_1);
    [vm_compute; reflexivity | vm_compute; discriminate].
Defined.

Lemma refresh_with_refresh_token_witness :
  JwtHandle.generateRefreshToken env_unset t0 "u1" = Return refresh_token_1 /\
  clock_seconds (t0 + 6 * 86400000) < clock_seconds t0 + 7 * 24 * 60 * 60 /\
  get (refresh_body refresh_token_1) "refreshToken" = Some (JStr refresh_token_1) /\
  sample_findById (Some (JStr "u1")) = Return (Some (mkUser "u1" "a@x.com")) /\
  exists newToken,
    JwtHandle.generateToken env_unset (t0 + 6 * 86400000 + 1) "u1" "a@x.com"
    = Return newToken /\
    refresh env_unset sample_findById (t0 + 6 * 86400000) (t0 + 6 * 86400000 + 1)
      (refresh_body refresh_token_1) fresh
    = Return (mkResponse 200 [] (SentJson (JObj [("token", JStr newToken)]))).
Proof.
  split; [vm_compute; reflexivity |]. split; [reflexivity |].
  split; [reflexivity |]. split; [reflexivity |].
  apply (refresh_with_refresh_token env_unset sample_findById "u1" refresh_token_1
           t0 (t0 + 6 * 86400000) (t0 + 6 * 86400000 + 1)
           (refresh_body refresh_token_1) (mkUser "u1" "a@x.com"));
    solve [reflexivity | vm_compute; reflexivity].
Defined.

Lemma refreshed_token_verifies_witness :
  JwtHandle.verifyToken env_unset (t0 + 1000)
    (get (refresh_body refresh_token_1) "refreshToken")
  = Return (refresh_payload t0 "u1") /\
  has_key "id" (refresh_payload t0 "u1") = true /\
  sample_findById (get (refresh_payload t0 "u1") "id")
  = Return (Some (mkUser "u1" "a@x.com")) /\
  clock_seconds (t0 + 3000000) < clock_seconds (t0 + 1001) + 3600 /\
  exists newToken payload',
    refresh env_unset sample_findById (t0 + 1000) (t0 + 1001)
      (refresh_body refresh_token_1) fresh
    = Return (mkResponse 200 [] (SentJson (JObj [("token", JStr newToken)]))) /\
    JwtHandle.verifyToken env_unset (t0 + 3000000) (Some (JStr newToken))
    = Return payload' /\
    get payload' "id" = Some (JStr "u1") /\
    get payload' "email" = Some (JStr "a@x.com").
Proof.
  split; [vm_compute; reflexivity |]. split; [reflexivity |].
  split; [reflexivity |]. split; [reflexivity |].
  apply (refreshed_token_verifies env_unset sample_findById (t0 + 1000) (t0 + 1001)
           (t0 + 3000000) (refresh_body refresh_token_1) (refresh_payload t0 "u1")
           (mkUser "u1" "a@x.com"));
    solve [reflexivity | vm_compute; reflexivity].
Defined.

Lemma refresh_non_string_token_witness :
  get (JObj [("refreshToken", JNum 7)]) "refreshToken" = Some (JNum 7) /\
  truthy (Some (JNum 7)) = true /\
  (forall s, JNum 7 <> JStr s) /\
  refresh env_unset sample_findById (t0 + 1000) (t0 + 1001)
    (JObj [("refreshToken", JNum 7)]) fresh
  = answer 401 "Refresh token inválido o expirado".
Proof.
  split; [reflexivity |]. split; [reflexivity |].
  split; [intros s; discriminate |].
  apply (refresh_non_string_token env_unset sample_findById (t0 + 1000) (t0 + 1001)
           (JObj [("refreshToken", JNum 7)]) (JNum 7));
    [reflexivity | reflexivity | intros s; discriminate].
Defined.

Lemma refresh_payload_without_id_witness :
  JwtHandle.verifyToken env_unset (t0 + 1000)
    (get (refresh_body token_without_id) "refreshToken")
  = Return payload_without_id /\
  has_key "id" payload_without_id = false /\
  refresh env_unset sample_findById (t0 + 1000) (t0 + 1001)
    (refresh_body token_without_id) fresh
  = answer 401 "Refresh token inválido o expirado" /\
  refresh env_unset failing_findById (t0 + 1000) (t0 + 1001)
    (refresh_body token_without_id) fresh
  = answer 401 "Refresh token inválido o expirado".
Proof.
  split; [vm_compute; reflexivity |]. split; [reflexivity |].
  apply (refresh_payload_without_id env_unset sample_findById (t0 + 1000) (t0 + 1001)
           (refresh_body token_without_id) payload_without_id failing_findById);
    [vm_compute; reflexivity | reflexivity].
Defined.

Lemma refresh_200_only_if_verified_witness :
  refresh env_unset sample_findById (t0 + 1000) (t0 + 1001)
    (refresh_body refresh_token_1) fresh
  = Return refreshed_response /\
  statusCode refreshed_response = 200 /\
  exists payload u newToken,
    JwtHandle.verifyToken env_unset (t0 + 1000)
      (get (refresh_body refresh_token_1) "refreshToken") = Return payload /\
    has_key "id" payload = true /\
    sample_findById (get payload "id") = Return (Some u) /\
    JwtHandle.generateToken env_unset (t0 + 1001) (user_id u) (user_email u)
    = Return newToken /\
    refreshed_response = mkResponse 200 [] (SentJson (JObj [("token", JStr newToken)])).
Proof.
  split; [vm_compute; reflexivity |]. split; [reflexivity |].
  apply (refresh_200_only_if_verified env_unset sample_findById (t0 + 1000) (t0 + 1001)
           (refresh_body refresh_token_1) refreshed_response);
    [vm_compute; reflexivity | reflexivity].
Defined.

Lemma authorization_url_has_six_parameters_witness :
  env_GOOGLE_OAUTH_REDIRECT_URL env_google
  = Some "http://localhost:9000/api/auth/google/callback?x=1&y=2" /\
  "http://localhost:9000/api/auth/google/callback?x=1&y=2" <> "" /\
  exists url,
    googleAuthCtrl env_google fresh = Return (mkResponse 302 [] (SentRedirect url)) /\
    count_char "?" url = 1%nat /\
    count_char "&" url = 5%nat /\
    count_char "=" url = 6%nat /\
    count_char "#" url = 0%nat.
Proof.
  split; [reflexivity |]. split; [discriminate |].
  apply (authorization_url_has_six_parameters env_google
           "http://localhost:9000/api/auth/google/callback?x=1&y=2");
    [reflexivity | discriminate].
Defined.

Lemma googleAuthCtrl_without_client_id_witness :
  env_GOOGLE_OAUTH_REDIRECT_URL env_no_client_id
  = Some "http://localhost:9000/api/auth/google/callback" /\
  "http://localhost:9000/api/auth/google/callback" <> "" /\
  env_GOOGLE_CLIENT_ID env_no_client_id = None /\
  googleAuthCtrl env_no_client_id fresh
  = Return (mkResponse 302 []
              (SentRedirect
                 ("https://accounts.google.com/o/oauth2/v2/auth?redirect_uri="
                    ++ UrlSearchParams.encode
                         "http://localhost:9000/api/auth/google/callback"
                    ++ "&client_id=undefined" ++ fixed_parameters))).
Proof.
  split; [reflexivity |]. split; [discriminate |]. split; [reflexivity |].
  apply (googleAuthCtrl_without_client_id env_no_client_id
           "http://localhost:9000/api/auth/google/callback");
    [reflexivity | discriminate | reflexivity].
Defined.

Lemma refresh_rejects_expired_access_token_witness :
  JwtHandle.generateToken env_unset t0 "u1" "a@x.com" = Return access_token_1 /\
  clock_seconds t0 + 3600 <= clock_seconds (t0 + 3600000) /\
  get (refresh_body access_token_1) "refreshToken" = Some (JStr access_token_1) /\
  refresh env_unset sample_findById (t0 + 3600000) (t0 + 3600001)
    (refresh_body access_token_1) fresh
  = answer 401 "Refresh token inválido o expirado".
Proof.
  split; [vm_compute; reflexivity |]. split; [vm_compute; discriminate |].
  split; [reflexivity |].
  apply (refresh_rejects_expired_access_token env_unset sample_findById
           "u1" "a@x.com" access_token_1 t0 (t0 + 3600000) (t0 + 3600001)
           (refresh_body access_token_1));
    [vm_compute; reflexivity | vm_compute; discriminate | reflexivity].
Defined.

(** The cookies written before the throw stay on the answer. *)
Example userless_result_keeps_cookies :
  googleAuthCallback userless_googleAuth (Some (JStr "4/0AbCd")) fresh
  = Return
      (mkResponse 302
         [mkCookie "token" "access-1" true false "none" 86400000;
          mkCookie "refreshToken" "refresh-1" true false "none" 604800000]
         (SentRedirect "/login?error=server_error")).
Proof. reflexivity. Qed.


Lemma googleAuthCallback_without_code_witness :
  truthy (Some (JStr "")) = false /\
  googleAuthCallback sample_googleAuth (Some (JStr "")) fresh
  = answer 400 "Código de autorización faltante" /\
  googleAuthCallback failing_googleAuth (Some (JStr "")) fresh
  = answer 400 "Código de autorización faltante".
Proof.
  split; [reflexivity |].
  apply (googleAuthCallback_without_code sample_googleAuth (Some (JStr ""))
           failing_googleAuth).
  reflexivity.
Defined.

Lemma googleAuthCallback_failures_witness :
  truthy (Some (JStr "4/0AbCd")) = true /\
  null_googleAuth (Some (JStr "4/0AbCd")) = Return None /\
  googleAuthCallback null_googleAuth (Some (JStr "4/0AbCd")) fresh
  = Return (mkResponse 302 [] (SentRedirect "/login?error=authentication_failed")) /\
  failing_googleAuth (Some (JStr "4/0AbCd"))
  = Throw (mkError "AxiosError" "Request failed with status code 400") /\
  googleAuthCallback failing_googleAuth (Some (JStr "4/0AbCd")) fresh
  = Return (mkResponse 302 [] (SentRedirect "/login?error=server_error")).
Proof.
  split; [reflexivity |]. split; [reflexivity |].
  split.
  { apply (proj1 (googleAuthCallback_failures null_googleAuth
                    (Some (JStr "4/0AbCd")) eq_refl)).
    reflexivity. }
  split; [reflexivity |].
  apply (proj2 (googleAuthCallback_failures failing_googleAuth
                  (Some (JStr "4/0AbCd")) eq_refl)
           (mkError "AxiosError" "Request failed with status code 400")).
  reflexivity.
Defined.

End FurtherRuns.
